(** * convert_models.py: the ONNX conversion pipeline and its label configuration

    A shallow embedding of [ModelConverter] (convert_models.py) and of the
    tensor manipulations exercised by tests/test_convert_models_fix.py.

    The script is sequential glue around third-party libraries.  Every
    library call is a [call] answered by a [world]; the Python process is a
    [state] (standard output, files, the default random generator, and the
    sequence of library calls made so far).  Exceptions propagate through a
    small state-and-exception monad; [try_except_Exception] is Python's
    [try: ... except Exception as e: ...]. *)

From Stdlib Require Import QArith Qminmax Qround.
From stdpp Require Import gmap strings list fin_maps.

Open Scope Z_scope.
Open Scope string_scope.
Open Scope list_scope.

(** ** Paths (pathlib.Path) *)

Module Path.

(** A path is its sequence of components; the root of an absolute path
    is the component "/", and a relative path with no component is the
    current directory. *)
Definition t := list string.

(** [p / q] for a relative [q]. *)
Definition div (p q : t) : t := p ++ q.

(** [str(p)] *)
Definition str (p : t) : string :=
  match p with
  | [] => "."
  | "/" :: cs => "/" +:+ String.concat "/" cs
  | _ => String.concat "/" p
  end.

End Path.

Infix "//" := Path.div (at level 40, left associativity).

(** ** Exceptions *)

(** A raised Python object.  [except Exception] handles the instances of
    [Exception] (library errors, [OSError], [ValueError], ...); objects
    that only derive from [BaseException] ([KeyboardInterrupt],
    [SystemExit]) pass through such a handler. *)
Record exn := Exn {
  exn_type : string;
  isinstance_Exception : bool;
  exn_str : string          (* str(e), as interpolated by an f-string *)
}.

(** ** JSON documents (the argument of json.dump) *)

#[warnings="-register-all"]
Inductive json :=
| JStr (s : string)
| JInt (z : Z)
| JFloat (q : Q)
| JList (l : list json)
| JObj (kv : list (string * json)).   (* a dict literal, in source order *)

Module Json.

Definition get (k : string) (j : json) : option json :=
  match j with
  | JObj kv => snd <$> List.find (fun e => String.eqb (fst e) k) kv
  | _ => None
  end.

Fixpoint get_path (ks : list string) (j : json) : option json :=
  match ks with
  | [] => Some j
  | k :: ks' => match get k j with
                | Some j' => get_path ks' j'
                | None => None
                end
  end.

Definition items (j : json) : list (string * json) :=
  match j with JObj kv => kv | _ => [] end.

Definition keys (j : json) : list string := fst <$> items j.
Definition values (j : json) : list json := snd <$> items j.

Definition elements (j : json) : list json :=
  match j with JList l => l | _ => [] end.

Definition as_str (j : json) : option string :=
  match j with JStr s => Some s | _ => None end.

Definition of_strs (l : list string) : json := JList (JStr <$> l).

End Json.

(** A float literal [0.d1...d16] of the source, as the rational it
    denotes.  The double Python stores is the nearest binary64 value; each
    literal below is the [repr] of that double, which is what json.dump
    prints. *)
Definition float_lit (digits : Z) : Q := Qmake digits (10 ^ 16)%positive.

(** ** The configuration document of [save_model_config] *)

Module Config.

Definition yolo_classes : list string :=
  [ "person"; "bicycle"; "car"; "motorcycle"; "airplane"; "bus"; "train"; "truck"; "boat";
    "traffic light"; "fire hydrant"; "stop sign"; "parking meter"; "bench"; "bird"; "cat";
    "dog"; "horse"; "sheep"; "cow"; "elephant"; "bear"; "zebra"; "giraffe"; "backpack";
    "umbrella"; "handbag"; "tie"; "suitcase"; "frisbee"; "skis"; "snowboard"; "sports ball";
    "kite"; "baseball bat"; "baseball glove"; "skateboard"; "surfboard"; "tennis racket";
    "bottle"; "wine glass"; "cup"; "fork"; "knife"; "spoon"; "bowl"; "banana"; "apple";
    "sandwich"; "orange"; "broccoli"; "carrot"; "hot dog"; "pizza"; "donut"; "cake";
    "chair"; "couch"; "potted plant"; "bed"; "dining table"; "toilet"; "tv"; "laptop";
    "mouse"; "remote"; "keyboard"; "cell phone"; "microwave"; "oven"; "toaster"; "sink";
    "refrigerator"; "book"; "clock"; "vase"; "scissors"; "teddy bear"; "hair drier"; "toothbrush" ].

Definition models : json :=
  JObj [ ("yolo", JObj [ ("path", JStr "models/yolo11m-seg.onnx");
                         ("input_size", JList [JInt 640; JInt 640]);
                         ("classes", Json.of_strs yolo_classes) ]);
         ("clip_vision", JObj [ ("path", JStr "models/clip_vision_encoder.onnx");
                                ("input_size", JList [JInt 224; JInt 224]) ]);
         ("clip_text", JObj [ ("path", JStr "models/clip_text_encoder.onnx");
                              ("vocab_size", JInt 49408) ]);
         ("clipseg", JObj [ ("path", JStr "models/clipseg.onnx");
                            ("input_size", JList [JInt 352; JInt 352]) ]) ].

Definition yolo_alias : list (string * list string) :=
  [ ("bicycle", ["bicycle"]);
    ("car", ["car"; "truck"]);
    ("bus", ["bus"; "truck"]);
    ("motorcycle", ["motorcycle"]);
    ("boat", ["boat"]);
    ("fire hydrant", ["fire hydrant"; "parking meter"]);
    ("parking meter", ["fire hydrant"; "parking meter"]);
    ("traffic light", ["traffic light"]) ].

Definition clip_labels : list string :=
  [ "bicycle"; "boat"; "bus"; "car"; "fire hydrant"; "motorcycle"; "traffic light";
    "bridge"; "chimney"; "crosswalk"; "mountain"; "palm tree"; "stair"; "tractor"; "taxi" ].

Definition challenge_alias : list (string * string) :=
  [ ("car", "car"); ("cars", "car"); ("vehicles", "car");
    ("taxis", "taxi"); ("taxi", "taxi");
    ("bus", "bus"); ("buses", "bus");
    ("motorcycle", "motorcycle"); ("motorcycles", "motorcycle");
    ("bicycle", "bicycle"); ("bicycles", "bicycle");
    ("boats", "boat"); ("boat", "boat");
    ("tractors", "tractor"); ("tractor", "tractor");
    ("stairs", "stair"); ("stair", "stair");
    ("palm trees", "palm tree"); ("palm tree", "palm tree");
    ("fire hydrants", "fire hydrant"); ("a fire hydrant", "fire hydrant");
    ("fire hydrant", "fire hydrant");
    ("parking meters", "parking meter"); ("parking meter", "parking meter");
    ("crosswalks", "crosswalk"); ("crosswalk", "crosswalk");
    ("traffic lights", "traffic light"); ("traffic light", "traffic light");
    ("bridges", "bridge"); ("bridge", "bridge");
    ("mountains or hills", "mountain"); ("mountain or hill", "mountain");
    ("mountain", "mountain");
    ("mountains", "mountain"); ("hills", "mountain"); ("hill", "mountain");
    ("chimney", "chimney"); ("chimneys", "chimney") ].

Definition thresholds : list (string * Q) :=
  [ ("bridge", float_lit 7285372716747225);
    ("chimney", float_lit 7918647485226393);
    ("crosswalk", float_lit 8879293048381806);
    ("mountain", float_lit 5551278884819476);
    ("palm tree", float_lit 8093279512040317);
    ("stair", float_lit 9112694561691023);
    ("tractor", float_lit 9385110986077537);
    ("taxi", float_lit 7967491503432393) ].

Definition labels : json :=
  JObj [ ("yolo_alias", JObj (prod_map id Json.of_strs <$> yolo_alias));
         ("clip_labels", Json.of_strs clip_labels);
         ("challenge_alias", JObj (prod_map id JStr <$> challenge_alias));
         ("thresholds", JObj (prod_map id JFloat <$> thresholds)) ].

Definition config : json :=
  JObj [ ("models", models); ("labels", labels) ].

End Config.

(** ** Tensors and arrays *)

(** A dense array: its shape and its elements in row-major order,
    [data i] for [i < numel].  A float32 tensor holds the rationals its
    elements denote; a uint8 array holds integers. *)
Record ndarray (A : Type) := NdArray {
  shape : list nat;
  data : nat -> A
}.
Arguments NdArray {A} _ _.
Arguments shape {A} _.
Arguments data {A} _ _.

Definition numel_of (sh : list nat) : nat := foldr Nat.mul 1%nat sh.
Definition numel {A} (t : ndarray A) : nat := numel_of (shape t).

(** The elements, in storage order. *)
Definition to_list {A} (t : ndarray A) : list A := data t <$> seq 0 (numel t).

Definition tensor := ndarray Q.

(** [t.min().item()] and [t.max().item()] of a non-empty tensor. *)
Definition tensor_min (t : tensor) : Q :=
  foldr Qmin (data t 0%nat) (to_list t).
Definition tensor_max (t : tensor) : Q :=
  foldr Qmax (data t 0%nat) (to_list t).

(** Every element lies in the closed interval [lo, hi]. *)
Definition elements_within (lo hi : Q) (t : tensor) : Prop :=
  forall i, (i < numel t)%nat -> (lo <= data t i)%Q /\ (data t i <= hi)%Q.

(** ** torch.rand *)

Module Torch.

(** The default generator: the raw integers it will hand out next. *)
Definition generator := nat -> Z.

(** [uniform_real] of ATen, at float32: the low 24 bits of a raw draw,
    scaled by 2^-24, then mapped to [from, to).  The products are dyadic
    rationals with 24 significant bits, so float32 holds them exactly. *)
Definition digits : Z := 24.
Definition MASK : Z := Z.shiftl 1 digits - 1.
Definition DIVISOR : Q := Qmake 1 (2 ^ 24)%positive.

Definition uniform_real (val : Z) (from to : Q) : Q :=
  let x := (inject_Z (Z.land val MASK) * DIVISOR)%Q in
  (x * (to - from) + from)%Q.

(** [torch.rand] at a given size: one draw per element, uniform on [0, 1); returns
    the tensor and the advanced generator. *)
Definition rand (size : list nat) (g : generator) : tensor * generator :=
  (NdArray size (fun i => uniform_real (g i) 0 1),
   fun i => g (numel_of size + i)%nat).

(** [t.squeeze(0)] *)
Definition squeeze0 {A} (t : ndarray A) : ndarray A :=
  match shape t with
  | 1%nat :: sh => NdArray sh (data t)
  | _ => t
  end.

(** [t.permute(1, 2, 0)] of a three-dimensional tensor: element
    [(y, x, c)] of the result is element [(c, y, x)] of [t]. *)
Definition permute120 {A} (t : ndarray A) : ndarray A :=
  match shape t with
  | [c; h; w] =>
      NdArray [h; w; c]
        (fun i => data t ((i mod c) * (h * w) + i / c)%nat)
  | _ => t
  end.

End Torch.

(** ** numpy and PIL, as the test uses them *)

Module Numpy.

(** Rounding of a real number to float32.  The arithmetic below takes it
    as a parameter; what is used of it is that it is monotone and leaves
    0 and 255, which float32 holds exactly, unchanged. *)
Definition is_rounding (fl : Q -> Q) : Prop :=
  (forall x y, (x <= y)%Q -> (fl x <= fl y)%Q) /\
  (fl 0 == 0)%Q /\ (fl (inject_Z 255) == inject_Z 255)%Q.

(** [a * k] for a float32 array and a Python int: the product of each
    element, rounded. *)
Definition mul_scalar (fl : Q -> Q) (a : ndarray Q) (k : Z) : ndarray Q :=
  NdArray (shape a) (fun i => fl (data a i * inject_Z k)%Q).

(** The C conversion behind [astype(np.uint8)]: the fraction is dropped
    (rounding toward zero) and the integer is reduced modulo 2^8. *)
Definition truncate (x : Q) : Z := Z.quot (Qnum x) (Zpos (Qden x)).
Definition to_uint8 (x : Q) : Z := truncate x mod 2 ^ 8.

Definition astype_uint8 (a : ndarray Q) : ndarray Z :=
  NdArray (shape a) (fun i => to_uint8 (data a i)).

(** [a.min()], [a.max()] *)
Definition min (a : ndarray Q) : Q := tensor_min a.
Definition max (a : ndarray Q) : Q := tensor_max a.

End Numpy.

Module PIL.

Record image := Image { mode : string; size : nat * nat }.

Inductive fromarray_result :=
| Created (im : image)
| TypeError (msg : string).

(** [Image.fromarray] on a uint8 array: the mode is looked up from the
    shape past the first two axes, (height, width) becomes the size
    (width, height), and a shape with no entry in the table is refused. *)
Definition fromarray (a : ndarray Z) : fromarray_result :=
  match shape a with
  | [n] => Created (Image "L" (1%nat, n))
  | [h; w] => Created (Image "L" (w, h))
  | [h; w; 2%nat] => Created (Image "LA" (w, h))
  | [h; w; 3%nat] => Created (Image "RGB" (w, h))
  | [h; w; 4%nat] => Created (Image "RGBA" (w, h))
  | _ => TypeError "Cannot handle this data type"
  end.

End PIL.

(** ** Library calls, files and the process state *)

(** The keyword arguments of [torch.onnx.export]. *)
Record onnx_export_args := OnnxExportArgs {
  exported : string;                 (* the module being traced *)
  example_inputs : list string;      (* the processor outputs passed as inputs *)
  dest : Path.t;
  export_params : bool;
  opset_version : Z;
  do_constant_folding : bool;
  input_names : list string;
  output_names : list string;
  dynamic_axes : list (string * list (Z * string))
}.

(** The keyword arguments of ultralytics' [model.export]. *)
Record yolo_export_args := YoloExportArgs {
  format : string;
  imgsz : Z;
  optimize : bool;
  half : bool;
  simplify : bool;
  opset : Z
}.

Inductive call :=
| Mkdir (p : Path.t) (exist_ok : bool)
| CheckLoaded                                    (* detection_models.check_loaded() *)
| YOLO (weights : string)
| YoloExport (a : yolo_export_args)
| Rename (src dst : Path.t)
| FromPretrained (cls name : string)
| Eval (cls : string)                            (* model.eval() *)
| Processor (cls : string) (text : list string) (images : tensor)
            (return_tensors : string) (padding : bool)
| OnnxExport (a : onnx_export_args)
| Open (p : Path.t) (mode : string)
| JsonDump (doc : json) (fp : Path.t) (indent : Z).

Inductive file :=
| OnnxGraph (a : onnx_export_args)     (* written by torch.onnx.export *)
| YoloGraph (a : yolo_export_args)     (* written by ultralytics *)
| JsonText (doc : json) (indent : Z)   (* a complete json.dump *)
| Unfinished                           (* opened for writing, not completed *)
| Blob (content : string).

Definition is_onnx (f : file) : bool :=
  match f with OnnxGraph _ | YoloGraph _ => true | _ => false end.

Inductive outcome :=
| Returns
| Raises (e : exn).

(** What lies outside the script: how each library call ends, and whether
    ultralytics leaves its ONNX file behind when its export returns. *)
Record world := World {
  respond : call -> outcome;
  yolo_export_writes : bool
}.

Record state := State {
  stdout : list string;          (* one entry per print() *)
  fs : gmap (list string) file;
  rng : Torch.generator;
  trace : list call              (* the library calls made, oldest first *)
}.

(** ultralytics writes next to the weights, with the suffix replaced. *)
Definition yolo_onnx_path : Path.t := ["yolo11m-seg.onnx"].

(** The effect on the files of a library call that returns. *)
Definition effect (w : world) (c : call) (m : gmap (list string) file)
  : gmap (list string) file :=
  match c with
  | YoloExport a =>
      if yolo_export_writes w then <[yolo_onnx_path := YoloGraph a]> m else m
  | Rename src dst =>
      match m !! src with
      | Some f => <[dst := f]> (delete src m)
      | None => m
      end
  | OnnxExport a => <[dest a := OnnxGraph a]> m
  | Open p mode => if String.eqb mode "w" then <[p := Unfinished]> m else m
  | JsonDump doc fp indent => <[fp := JsonText doc indent]> m
  | _ => m
  end.

(** ** The state-and-exception monad *)

Inductive result (A : Type) :=
| Normal (a : A)
| Raise (e : exn).
Arguments Normal {A} _.
Arguments Raise {A} _.

Definition M (A : Type) : Type := state -> state * result A.

#[global] Instance M_ret : MRet M := fun A a s => (s, Normal a).

#[global] Instance M_bind : MBind M := fun A B f m s =>
  match m s with
  | (s', Normal a) => f a s'
  | (s', Raise e) => (s', Raise e)
  end.

Definition print (line : string) : M unit := fun s =>
  (State (stdout s ++ [line]) (fs s) (rng s) (trace s), Normal tt).

Definition invoke (w : world) (c : call) : M unit := fun s =>
  let tr := trace s ++ [c] in
  match respond w c with
  | Returns => (State (stdout s) (effect w c (fs s)) (rng s) tr, Normal tt)
  | Raises e => (State (stdout s) (fs s) (rng s) tr, Raise e)
  end.

Definition exists_ (p : Path.t) : M bool := fun s =>
  (s, Normal (bool_decide (is_Some (fs s !! p)))).

Definition torch_rand (size : list nat) : M tensor := fun s =>
  let '(t, g) := Torch.rand size (rng s) in
  (State (stdout s) (fs s) g (trace s), Normal t).

(** [try: body  except Exception as e: handler e] *)
Definition try_except_Exception {A} (body : M A) (handler : exn -> M A)
  : M A := fun s =>
  match body s with
  | (s', Raise e) =>
      if isinstance_Exception e then handler e s' else (s', Raise e)
  | r => r
  end.

(** ** class ModelConverter *)

Record ModelConverter := { output_dir : Path.t }.

Definition clip_vit_name : string := "flavour/CLIP-ViT-B-16-DataComp.XL-s13B-b90K".
Definition clipseg_name : string := "CIDAS/clipseg-rd64-refined".

Definition clip_text_export (self : ModelConverter) : onnx_export_args :=
  {| exported := "model.text_model";
     example_inputs := ["input_ids"; "attention_mask"];
     dest := output_dir self // ["clip_text_encoder.onnx"];
     export_params := true;
     opset_version := 11;
     do_constant_folding := true;
     input_names := ["input_ids"; "attention_mask"];
     output_names := ["text_features"];
     dynamic_axes := [ ("input_ids", [(0, "batch_size"); (1, "sequence")]);
                       ("attention_mask", [(0, "batch_size"); (1, "sequence")]);
                       ("text_features", [(0, "batch_size")]) ] |}.

Definition clip_vision_export (self : ModelConverter) : onnx_export_args :=
  {| exported := "model.vision_model";
     example_inputs := ["pixel_values"];
     dest := output_dir self // ["clip_vision_encoder.onnx"];
     export_params := true;
     opset_version := 11;
     do_constant_folding := true;
     input_names := ["pixel_values"];
     output_names := ["image_features"];
     dynamic_axes := [ ("pixel_values", [(0, "batch_size")]);
                       ("image_features", [(0, "batch_size")]) ] |}.

Definition clipseg_export (self : ModelConverter) : onnx_export_args :=
  {| exported := "model";
     example_inputs := ["input_ids"; "pixel_values"; "attention_mask"];
     dest := output_dir self // ["clipseg.onnx"];
     export_params := true;
     opset_version := 11;
     do_constant_folding := true;
     input_names := ["input_ids"; "pixel_values"; "attention_mask"];
     output_names := ["logits"];
     dynamic_axes := [ ("input_ids", [(0, "batch_size"); (1, "sequence")]);
                       ("pixel_values", [(0, "batch_size")]);
                       ("attention_mask", [(0, "batch_size"); (1, "sequence")]);
                       ("logits", [(0, "batch_size")]) ] |}.

Definition yolo_export : yolo_export_args :=
  {| format := "onnx"; imgsz := 640; optimize := true; half := false;
     simplify := true; opset := 11 |}.

Definition newline : string := String (Ascii.ascii_of_nat 10) EmptyString.

Section Converter.

Variable w : world.

(** [__init__]; [script_dir] is [Path(__file__).parent]. *)
Definition init (script_dir : Path.t) (output_dir_arg : Path.t) : M ModelConverter :=
  let self := {| output_dir := script_dir // output_dir_arg |} in
  invoke w (Mkdir (output_dir self) true) ;;
  print ("Output directory: " +:+ Path.str (output_dir self)) ;;
  mret self.

Definition default_output_dir : Path.t := ["browser-extension"; "models"].

Definition convert_clip_vit_model (self : ModelConverter) : M unit :=
  print "Converting CLIP ViT model..." ;;
  try_except_Exception
    (invoke w (FromPretrained "CLIPModel" clip_vit_name) ;;
     invoke w (FromPretrained "CLIPProcessor" clip_vit_name) ;;
     invoke w (Eval "CLIPModel") ;;
     let dummy_text := ["a bicycle"; "a car"; "a bus"] in
     dummy_images ← torch_rand [1; 3; 224; 224]%nat ;
     invoke w (Processor "CLIPProcessor" dummy_text dummy_images "pt" true) ;;
     invoke w (OnnxExport (clip_text_export self)) ;;
     invoke w (OnnxExport (clip_vision_export self)) ;;
     print "✓ CLIP ViT models converted successfully")
    (fun e => print ("✗ Failed to convert CLIP ViT model: " +:+ exn_str e)).

Definition convert_clipseg_model (self : ModelConverter) : M unit :=
  print "Converting CLIPSeg model..." ;;
  try_except_Exception
    (invoke w (FromPretrained "CLIPSegForImageSegmentation" clipseg_name) ;;
     invoke w (FromPretrained "CLIPSegProcessor" clipseg_name) ;;
     invoke w (Eval "CLIPSegForImageSegmentation") ;;
     let dummy_text := ["a bicycle"] in
     dummy_image ← torch_rand [1; 3; 352; 352]%nat ;
     invoke w (Processor "CLIPSegProcessor" dummy_text dummy_image "pt" false) ;;
     invoke w (OnnxExport (clipseg_export self)) ;;
     print "✓ CLIPSeg model converted successfully")
    (fun e => print ("✗ Failed to convert CLIPSeg model: " +:+ exn_str e)).

Definition convert_yolo_model (self : ModelConverter) : M unit :=
  print "Converting YOLO model..." ;;
  try_except_Exception
    (invoke w (YOLO "yolo11m-seg.pt") ;;
     invoke w (YoloExport yolo_export) ;;
     found ← exists_ yolo_onnx_path ;
     if found : bool then
       invoke w (Rename yolo_onnx_path (output_dir self // ["yolo11m-seg.onnx"])) ;;
       print "✓ YOLO model converted successfully"
     else
       print "✗ YOLO ONNX file not found after export")
    (fun e => print ("✗ Failed to convert YOLO model: " +:+ exn_str e)).

Definition config_path (self : ModelConverter) : Path.t :=
  output_dir self // ["config.json"].

Definition save_model_config (self : ModelConverter) : M unit :=
  let config := Config.config in
  invoke w (Open (config_path self) "w") ;;
  invoke w (JsonDump config (config_path self) 2) ;;
  print "✓ Model configuration saved".

Definition convert_all (self : ModelConverter) : M unit :=
  print "Starting model conversion..." ;;
  print "Loading PyTorch models..." ;;
  (* [loaded] is false when the handler's [return] leaves the method *)
  loaded ← try_except_Exception
    (invoke w CheckLoaded ;;
     print "✓ PyTorch models loaded" ;;
     mret true)
    (fun e =>
     print ("✗ Failed to load PyTorch models: " +:+ exn_str e) ;;
     mret false) ;
  if loaded : bool then
    convert_yolo_model self ;;
    convert_clip_vit_model self ;;
    convert_clipseg_model self ;;
    save_model_config self ;;
    print (newline +:+ "Model conversion completed!") ;;
    print ("Models saved to: " +:+ Path.str (output_dir self)) ;;
    print (newline +:+ "Next steps:") ;;
    print "1. Copy the browser-extension folder to your preferred location" ;;
    print "2. Load the extension in Chrome/Edge developer mode" ;;
    print "3. Test on reCAPTCHA demo sites"
  else
    mret tt.

(** [if __name__ == "__main__":], reached once the imports at the top of
    the script have succeeded. *)
Definition main (script_dir : Path.t) : M unit :=
  converter ← init script_dir default_output_dir ;
  convert_all converter.

End Converter.

(** ** tests/test_convert_models_fix.py *)

Module Test.

Inductive outcome :=
| Passed
| AssertionFailed
| Errored (msg : string).

(** [test_dummy_image_ranges_clip_vit] and [..._clipseg], at the size
    each one uses. *)
Definition test_dummy_image_ranges (size : list nat) (g : Torch.generator) : outcome :=
  let dummy_images := fst (Torch.rand size g) in
  if negb (Qle_bool 0 (tensor_min dummy_images)) then AssertionFailed
  else if negb (Qle_bool (tensor_max dummy_images) 1) then AssertionFailed
  else if negb (Qle_bool 4 (tensor_max dummy_images)) &&
          negb (Qle_bool (tensor_min dummy_images) (-4))
       then Passed else AssertionFailed.

(** The body of the [subTest] loop of
    [test_pil_image_conversion_compatibility], from the tensor on. *)
Definition pil_image_conversion (fl : Q -> Q) (dummy_tensor : tensor)
  : ndarray Q * ndarray Z * PIL.fromarray_result :=
  let np_array := Torch.permute120 (Torch.squeeze0 dummy_tensor) in
  let uint8_array := Numpy.astype_uint8 (Numpy.mul_scalar fl np_array 255) in
  (np_array, uint8_array, PIL.fromarray uint8_array).

Definition test_pil_image_conversion_compatibility
    (fl : Q -> Q) (size : list nat) (g : Torch.generator) : outcome :=
  let dummy_tensor := fst (Torch.rand size g) in
  let '(np_array, uint8_array, pil) := pil_image_conversion fl dummy_tensor in
  if negb (Qle_bool 0 (Numpy.min np_array)) then AssertionFailed
  else if negb (Qle_bool (Numpy.max np_array) 1) then AssertionFailed
  else match pil with
       | PIL.TypeError msg => Errored msg
       | PIL.Created pil_image =>
           match size !! 3%nat, size !! 2%nat with
           | Some width, Some height =>
               if bool_decide (PIL.size pil_image = (width, height))
               then Passed else AssertionFailed
           | _, _ => Errored "IndexError"
           end
       end.

End Test.

(** ** Observations on a run *)

(** The library calls made, and the lines printed, by running [m] from [s]. *)
Definition calls_of {A} (m : M A) (s : state) : list call :=
  drop (length (trace s)) (trace (fst (m s))).

Definition printed {A} (m : M A) (s : state) : list string :=
  drop (length (stdout s)) (stdout (fst (m s))).

(** The placeholder tensors handed to the processors. *)
Definition placeholders (tr : list call) : list tensor :=
  omap (fun c => match c with Processor _ _ images _ _ => Some images | _ => None end) tr.

(** Every exception the world raises is an instance of [Exception]. *)
Definition raises_only_Exception (w : world) : Prop :=
  forall c e, respond w c = Raises e -> isinstance_Exception e = true.

(** The calls made by the three export methods, as opposed to the loading
    check and the writing of the configuration. *)
Definition is_export_call (c : call) : bool :=
  match c with
  | YOLO _ | YoloExport _ | Rename _ _ | FromPretrained _ _ | Eval _
  | Processor _ _ _ _ _ | OnnxExport _ => true
  | Mkdir _ _ | CheckLoaded | Open _ _ | JsonDump _ _ _ => false
  end.

(** The line an export's handler prints for [e]. *)
Definition failure_line (model : string) (e : exn) : string :=
  "✗ Failed to convert " +:+ model +:+ " model: " +:+ exn_str e.

(** The first library call of each export, and of the config emitter. *)
Definition yolo_start : call := YOLO "yolo11m-seg.pt".
Definition clip_vit_start : call := FromPretrained "CLIPModel" clip_vit_name.
Definition clipseg_start : call :=
  FromPretrained "CLIPSegForImageSegmentation" clipseg_name.
Definition config_start (self : ModelConverter) : call := Open (config_path self) "w".

(** The paths that hold an inference graph. *)
Definition onnx_files (m : gmap (list string) file) : gset (list string) :=
  dom (filter (fun kv => is_onnx kv.2 = true) m).

(** What the calls [start :: tr] and the lines [out] of one export method
    have to satisfy: export calls only, and the failure line of the
    export for any [Exception] one of the calls raised. *)
Definition export_obs (w : world) (model : string) (start : call)
    (tr : list call) (out : list string) : Prop :=
  Forall (fun c => is_export_call c = true) (start :: tr) /\
  (forall c e, c ∈ start :: tr -> respond w c = Raises e ->
               isinstance_Exception e = true -> failure_line model e ∈ out).

(** An export method run from [s]: it prints its banner, makes its first
    call, returns normally unless something other than an [Exception] is
    raised, and satisfies [export_obs]. *)
Definition export_run (w : world) (model : string) (start : call)
    (m : M unit) (s : state) : Prop :=
  exists out tr,
    stdout (fst (m s)) = stdout s ++ ("Converting " +:+ model +:+ " model...") :: out /\
    trace (fst (m s)) = trace s ++ start :: tr /\
    (raises_only_Exception w -> snd (m s) = Normal tt) /\
    export_obs w model start tr out.

(** The state in which the exports start once the loading check has
    returned. *)
Definition loaded_state (s : state) : state :=
  State (stdout s ++ ["Starting model conversion..."; "Loading PyTorch models...";
                      "✓ PyTorch models loaded"])
        (fs s) (rng s) (trace s ++ [CheckLoaded]).

(** The four inference graphs a converter writes. *)
Definition graph_paths (self : ModelConverter) : list Path.t :=
  [ output_dir self // ["yolo11m-seg.onnx"];
    output_dir self // ["clip_text_encoder.onnx"];
    output_dir self // ["clip_vision_encoder.onnx"];
    output_dir self // ["clipseg.onnx"] ].

(** ** Reading the label tables back from the emitted document *)

Definition label_table (name : string) (cfg : json) : json :=
  default (JObj []) (Json.get_path ["labels"; name] cfg).

Definition strings_of (j : json) : list string :=
  omap Json.as_str (Json.elements j).

Definition clip_labels_of (cfg : json) : list string :=
  strings_of (label_table "clip_labels" cfg).

Definition yolo_classes_of (cfg : json) : list string :=
  strings_of (default (JList []) (Json.get_path ["models"; "yolo"; "classes"] cfg)).

(** Every class name listed under some key of [yolo_alias]. *)
Definition yolo_alias_values (cfg : json) : list string :=
  concat (strings_of <$> Json.values (label_table "yolo_alias" cfg)).

Definition challenge_alias_values (cfg : json) : list string :=
  omap Json.as_str (Json.values (label_table "challenge_alias" cfg)).

Definition threshold_keys (cfg : json) : list string :=
  Json.keys (label_table "thresholds" cfg).

Definition threshold_values (cfg : json) : list json :=
  Json.values (label_table "thresholds" cfg).

(** Every category the alias tables refer to, and every key of the
    threshold table, is one of [clip_labels]. *)
Definition tables_within_clip_labels (cfg : json) : Prop :=
  forall x, x ∈ yolo_alias_values cfg ++ challenge_alias_values cfg ++ threshold_keys cfg ->
            x ∈ clip_labels_of cfg.

(** A placeholder of the given size whose elements, minimum and maximum
    lie in [0, 1]. *)
Definition placeholder_ok (size : list nat) (t : tensor) : Prop :=
  shape t = size /\ elements_within 0 1 t /\
  (0 <= tensor_min t)%Q /\ (tensor_max t <= 1)%Q.

(** ** Concrete worlds *)

Definition all_return : world := World (fun _ => Returns) true.

(** The loading check fails with a [RuntimeError]. *)
Definition check_fails : world :=
  World (fun c => match c with
                  | CheckLoaded => Raises (Exn "RuntimeError" true "CUDA unavailable")
                  | _ => Returns
                  end) true.

(** Every call of every export raises an [OSError]; the loading check and
    the writing of the configuration work. *)
Definition exports_fail : world :=
  World (fun c => if is_export_call c
                  then Raises (Exn "OSError" true "network is unreachable")
                  else Returns) false.

(** ultralytics returns from its export without leaving a file. *)
Definition yolo_leaves_nothing : world := World (fun _ => Returns) false.

Definition script_dir0 : Path.t := ["/"; "home"; "user"; "recognizer"].
Definition self0 : ModelConverter :=
  {| output_dir := script_dir0 // default_output_dir |}.

(** A fresh process: nothing printed, no file, a linear congruential
    stream of raw draws. *)
Definition s0 : state :=
  State [] ∅ (fun i => (Z.of_nat i * 1103515245 + 12345) mod 2 ^ 32) [].

(** Arithmetic without rounding error. *)
Definition exact (x : Q) : Q := x.

(** A 1x3x2x2 tensor with the elements 0, 1/11, ..., 11/11. *)
Definition small_tensor : tensor :=
  NdArray [1; 3; 2; 2]%nat (fun i => Qmake (Z.of_nat (Nat.min i 11)) 11).

(** ** Vocabulary for the behaviour of single methods *)

(** The lines [convert_all] prints after the configuration is saved. *)
Definition completion_report (self : ModelConverter) : list string :=
  [ newline +:+ "Model conversion completed!";
    "Models saved to: " +:+ Path.str (output_dir self);
    newline +:+ "Next steps:";
    "1. Copy the browser-extension folder to your preferred location";
    "2. Load the extension in Chrome/Edge developer mode";
    "3. Test on reCAPTCHA demo sites" ].

(** The paths a library call may write or remove when it returns. *)
Definition touches (c : call) : list Path.t :=
  match c with
  | YoloExport _ => [yolo_onnx_path]
  | Rename src dst => [src; dst]
  | OnnxExport a => [dest a]
  | Open p _ => [p]
  | JsonDump _ fp _ => [fp]
  | _ => []
  end.


(** A computation that leaves every file outside [ps] as it was. *)
Definition confined {A} (ps : list Path.t) (m : M A) : Prop :=
  forall s p, p ∉ ps -> fs (fst (m s)) !! p = fs s !! p.

(** How one export method ends. *)
Inductive export_outcome :=
| Succeeded
| NotFound                (* YOLO only: no ONNX file after the export *)
| Failed (e : exn)        (* an [Exception], handled *)
| Interrupted (e : exn).  (* anything else, propagated *)

Definition outcome_lines (success : string) (model : string)
    (o : export_outcome) : list string :=
  match o with
  | Succeeded => [success]
  | NotFound => ["✗ YOLO ONNX file not found after export"]
  | Failed e => [failure_line model e]
  | Interrupted _ => []
  end.

Definition outcome_result (o : export_outcome) : result unit :=
  match o with
  | Interrupted e => Raise e
  | _ => Normal tt
  end.

(** An export method run from [s] ends in the outcome [o]: it printed its
    banner and the line of [o], nothing else, and returned or raised
    accordingly. *)
Definition ends_in (model success : string) (m : M unit) (s : state)
    (o : export_outcome) : Prop :=
  printed m s = ("Converting " +:+ model +:+ " model...") :: outcome_lines success model o /\
  snd (m s) = outcome_result o /\
  match o with
  | Failed e => isinstance_Exception e = true
  | Interrupted e => isinstance_Exception e = false
  | _ => True
  end.

(** A computation that only adds to the trace, and that a call raising
    something other than an [Exception] ends: that call is the last one
    made and what it raised is the result. *)
Definition stops_at_interrupt (w : world) {A} (m : M A) : Prop :=
  forall s,
    trace s `prefix_of` trace (fst (m s)) /\
    forall c e, c ∈ calls_of m s -> respond w c = Raises e ->
                isinstance_Exception e = false ->
                snd (m s) = Raise e /\ exists tr, calls_of m s = tr ++ [c].

(** ** Reading the model table back from the emitted document *)

Definition yolo_alias_keys (cfg : json) : list string :=
  Json.keys (label_table "yolo_alias" cfg).

(** The targets listed under one key of [yolo_alias]. *)
Definition yolo_alias_of (key : string) (cfg : json) : list string :=
  strings_of (default (JList []) (Json.get key (label_table "yolo_alias" cfg))).

(** The ["path"] of every entry of ["models"]. *)
Definition model_paths (cfg : json) : list string :=
  omap (fun kv => match Json.get "path" kv.2 with
                  | Some j => Json.as_str j
                  | None => None
                  end)
       (Json.items (default (JObj []) (Json.get "models" cfg))).

(** The ["input_size"] of one entry of ["models"]. *)
Definition model_input_size (name : string) (cfg : json) : list Z :=
  omap (fun j => match j with JInt z => Some z | _ => None end)
       (Json.elements
          (default (JList []) (Json.get_path ["models"; name; "input_size"] cfg))).

(** ** More concrete worlds and states *)

(** The calls selected by [bad] raise [e]; all others return. *)
Definition failing_at (bad : call -> bool) (e : exn) (writes : bool) : world :=
  World (fun c => if bad c then Raises e else Returns) writes.

Definition is_open (c : call) : bool :=
  match c with Open _ _ => true | _ => false end.
Definition is_json_dump (c : call) : bool :=
  match c with JsonDump _ _ _ => true | _ => false end.
Definition is_rename (c : call) : bool :=
  match c with Rename _ _ => true | _ => false end.
Definition is_vision_export (c : call) : bool :=
  match c with
  | OnnxExport a => String.eqb (exported a) "model.vision_model"
  | _ => false
  end.
Definition is_clip_model_load (c : call) : bool :=
  match c with
  | FromPretrained cls _ => String.eqb cls "CLIPModel"
  | _ => false
  end.

Definition disk_full : exn := Exn "OSError" true "No space left on device".
Definition ctrl_c : exn := Exn "KeyboardInterrupt" false "".

(** A process started where an old [yolo11m-seg.onnx] and some notes
    are lying around. *)
Definition s_stale : state :=
  State [] (<[yolo_onnx_path := Blob "left over"]> {[ ["notes.txt"] := Blob "todo" ]})
        (rng s0) [].

(** * Properties *)

(** ** torch.rand *)

Lemma land_MASK_bounds (val : Z) :
  0 <= Z.land val Torch.MASK < 16777216.
Proof.
  change Torch.MASK with (Z.ones 24).
  rewrite Z.land_ones by lia.
  apply Z.mod_pos_bound. lia.
Qed.

Lemma uniform_real_unit (val : Z) :
  (0 <= Torch.uniform_real val 0 1)%Q /\ (Torch.uniform_real val 0 1 < 1)%Q.
Proof.
  pose proof (land_MASK_bounds val) as [Hlo Hhi].
  unfold Torch.uniform_real, Torch.DIVISOR.
  set (m := Z.land val Torch.MASK) in *.
  unfold Qle, Qlt; cbn; lia.
Qed.

Lemma rand_elements_within (size : list nat) (g : Torch.generator) :
  elements_within 0 1 (fst (Torch.rand size g)).
Proof.
  intros i _. cbn. destruct (uniform_real_unit (g i)) as [Hlo Hhi].
  split; [exact Hlo | apply Qlt_le_weak, Hhi].
Qed.

Lemma rand_shape (size : list nat) (g : Torch.generator) :
  shape (fst (Torch.rand size g)) = size.
Proof. reflexivity. Qed.

(** ** Minimum and maximum of a tensor *)

Lemma foldr_Qmin_lower (lo x0 : Q) (l : list Q) :
  (lo <= x0)%Q -> Forall (fun x => (lo <= x)%Q) l -> (lo <= foldr Qmin x0 l)%Q.
Proof.
  intros H0 Hl. induction Hl as [|x l Hx _ IH]; cbn; [exact H0|].
  apply Q.min_glb; assumption.
Qed.

Lemma foldr_Qmax_upper (hi x0 : Q) (l : list Q) :
  (x0 <= hi)%Q -> Forall (fun x => (x <= hi)%Q) l -> (foldr Qmax x0 l <= hi)%Q.
Proof.
  intros H0 Hl. induction Hl as [|x l Hx _ IH]; cbn; [exact H0|].
  apply Q.max_lub; assumption.
Qed.

Lemma elements_within_Forall (lo hi : Q) (t : tensor) :
  elements_within lo hi t ->
  Forall (fun x => (lo <= x)%Q /\ (x <= hi)%Q) (to_list t).
Proof.
  intros H. unfold to_list. apply Forall_fmap, Forall_forall.
  intros i Hi. apply elem_of_seq in Hi. apply H. lia.
Qed.

Lemma tensor_min_max_within (lo hi : Q) (t : tensor) :
  (0 < numel t)%nat -> elements_within lo hi t ->
  (lo <= tensor_min t)%Q /\ (tensor_max t <= hi)%Q.
Proof.
  intros Hne H. pose proof (elements_within_Forall _ _ _ H) as Hall.
  destruct (H 0%nat Hne) as [H0lo H0hi].
  split.
  - apply foldr_Qmin_lower; [exact H0lo|].
    eapply Forall_impl; [exact Hall|]. intros x [? ?]; assumption.
  - apply foldr_Qmax_upper; [exact H0hi|].
    eapply Forall_impl; [exact Hall|]. intros x [? ?]; assumption.
Qed.

(** ** Running the monad *)

Ltac unfold_M :=
  unfold try_except_Exception, mbind, M_bind, mret, M_ret,
         invoke, print, exists_, torch_rand.

Ltac case_respond w :=
  match goal with
  | |- context [respond w ?c] =>
      let R := fresh "R" in
      destruct (respond w c) as [|?e] eqn:R
  | |- context [isinstance_Exception ?e] =>
      let X := fresh "X" in
      destruct (isinstance_Exception e) eqn:X
  | |- context [bool_decide ?P] =>
      let D := fresh "D" in
      destruct (bool_decide P) eqn:D
  end.

Ltac simpl_run := cbn -[String.append effect Torch.uniform_real numel_of].

Ltac run w := unfold_M; simpl_run; repeat (case_respond w; simpl_run).

(** A raise that the hypothesis on the world rules out. *)
Ltac absurd_raise :=
  match goal with
  | H : raises_only_Exception ?w, R : respond ?w ?c = Raises ?e,
    X : isinstance_Exception ?e = false |- _ =>
      rewrite (H c e R) in X; discriminate X
  end.

Lemma trace_calls_of {A} (m : M A) (s : state) (tr : list call) :
  trace (fst (m s)) = trace s ++ tr -> calls_of m s = tr.
Proof. intros H. unfold calls_of. rewrite H. apply drop_app_length. Qed.

Lemma stdout_printed {A} (m : M A) (s : state) (out : list string) :
  stdout (fst (m s)) = stdout s ++ out -> printed m s = out.
Proof. intros H. unfold printed. rewrite H. apply drop_app_length. Qed.

Ltac normalize_lists := rewrite <- ?app_assoc; cbn [app].

Ltac split_elem H :=
  repeat (apply elem_of_cons in H; destruct H as [-> | H]);
  try (apply elem_of_nil in H; contradiction).

Ltac elem_of_list :=
  solve [ repeat first [ apply list_elem_of_here | apply list_elem_of_further ] ].

Ltac export_leaf :=
  normalize_lists;
  eexists _, _; split; [reflexivity|]; split; [reflexivity|];
  split; [intros ?; solve [reflexivity | absurd_raise] |];
  split;
  [ repeat constructor
  | let c := fresh "c" in let e' := fresh "e'" in
    let Hin := fresh "Hin" in let HR := fresh "HR" in let HX := fresh "HX" in
    intros c e' Hin HR HX; split_elem Hin;
    unfold yolo_start, clip_vit_start, clipseg_start in *;
    try congruence;
    match goal with
    | R : respond _ ?c = Raises ?e0 |- _ =>
        rewrite R in HR; injection HR as <-
    end;
    try congruence; elem_of_list ].

Lemma convert_yolo_model_run w self s :
  export_run w "YOLO" yolo_start (convert_yolo_model w self) s.
Proof. unfold export_run, convert_yolo_model. run w; export_leaf. Qed.

Lemma convert_clip_vit_model_run w self s :
  export_run w "CLIP ViT" clip_vit_start (convert_clip_vit_model w self) s.
Proof. unfold export_run, convert_clip_vit_model. run w; export_leaf. Qed.

Lemma convert_clipseg_model_run w self s :
  export_run w "CLIPSeg" clipseg_start (convert_clipseg_model w self) s.
Proof. unfold export_run, convert_clipseg_model. run w; export_leaf. Qed.

(** The exports return normally whatever their library calls do, as long
    as what is raised is an [Exception]. *)
Lemma convert_yolo_model_returns w self s :
  raises_only_Exception w -> snd (convert_yolo_model w self s) = Normal tt.
Proof. destruct (convert_yolo_model_run w self s) as (? & ? & _ & _ & H & _). exact H. Qed.

Lemma convert_clip_vit_model_returns w self s :
  raises_only_Exception w -> snd (convert_clip_vit_model w self s) = Normal tt.
Proof. destruct (convert_clip_vit_model_run w self s) as (? & ? & _ & _ & H & _). exact H. Qed.

Lemma convert_clipseg_model_returns w self s :
  raises_only_Exception w -> snd (convert_clipseg_model w self s) = Normal tt.
Proof. destruct (convert_clipseg_model_run w self s) as (? & ? & _ & _ & H & _). exact H. Qed.

Lemma save_model_config_run w self s :
  exists out tr,
    stdout (fst (save_model_config w self s)) = stdout s ++ out /\
    trace (fst (save_model_config w self s)) = trace s ++ config_start self :: tr /\
    (tr = [] \/ tr = [JsonDump Config.config (config_path self) 2]) /\
    (respond w (config_start self) = Returns ->
     respond w (JsonDump Config.config (config_path self) 2) = Returns ->
     save_model_config w self s =
       (State (stdout s ++ ["✓ Model configuration saved"])
              (<[config_path self := JsonText Config.config 2]> (fs s))
              (rng s)
              (trace s ++ [config_start self;
                           JsonDump Config.config (config_path self) 2]),
        Normal tt)).
Proof.
  unfold save_model_config, config_start. run w.
  all: normalize_lists; eexists _, _; split; [symmetry; apply app_nil_r || reflexivity|].
  all: split; [reflexivity|]; split; [auto|]; try congruence.
  intros _ _. cbn [effect String.eqb Ascii.eqb Bool.eqb]. rewrite insert_insert_eq. reflexivity.
Qed.

Lemma convert_all_stages w self s :
  respond w CheckLoaded = Returns -> raises_only_Exception w ->
  exists s2 s3 s4,
    convert_yolo_model w self (loaded_state s) = (s2, Normal tt) /\
    convert_clip_vit_model w self s2 = (s3, Normal tt) /\
    convert_clipseg_model w self s3 = (s4, Normal tt) /\
    trace (fst (convert_all w self s)) = trace (fst (save_model_config w self s4)) /\
    fs (fst (convert_all w self s)) = fs (fst (save_model_config w self s4)) /\
    snd (convert_all w self s) = snd (save_model_config w self s4) /\
    exists out, stdout (fst (convert_all w self s))
                = stdout (fst (save_model_config w self s4)) ++ out.
Proof.
  intros Hc Hw.
  destruct (convert_yolo_model w self (loaded_state s)) as [s2 r2] eqn:E2.
  destruct (convert_clip_vit_model w self s2) as [s3 r3] eqn:E3.
  destruct (convert_clipseg_model w self s3) as [s4 r4] eqn:E4.
  pose proof (convert_yolo_model_returns w self (loaded_state s) Hw) as N2.
  pose proof (convert_clip_vit_model_returns w self s2 Hw) as N3.
  pose proof (convert_clipseg_model_returns w self s3 Hw) as N4.
  rewrite E2 in N2. rewrite E3 in N3. rewrite E4 in N4. cbn in N2, N3, N4. subst.
  exists s2, s3, s4. repeat (split; [assumption|]).
  unfold convert_all, try_except_Exception, mbind, M_bind, mret, M_ret, invoke, print.
  rewrite Hc.
  cbn -[String.append convert_yolo_model convert_clip_vit_model
        convert_clipseg_model save_model_config].
  rewrite <- !app_assoc. cbn [app].
  fold (loaded_state s). rewrite E2, E3, E4.
  destruct (save_model_config w self s4) as [s5 [[]|e]] eqn:E5; cbn -[String.append].
  - repeat (split; [reflexivity|]). rewrite <- !app_assoc. eexists; reflexivity.
  - repeat (split; [reflexivity|]). exists []. symmetry; apply app_nil_r.
Qed.

(** The calls and the lines of a whole run whose loading check returns:
    those of the three exports, in order, then those of the config
    emitter. *)
Lemma convert_all_observed w self s :
  respond w CheckLoaded = Returns -> raises_only_Exception w ->
  exists tr1 out1 tr2 out2 tr3 out3 tr4 out4,
    calls_of (convert_all w self) s
      = CheckLoaded :: (yolo_start :: tr1) ++ (clip_vit_start :: tr2)
          ++ (clipseg_start :: tr3) ++ config_start self :: tr4 /\
    printed (convert_all w self) s
      = ["Starting model conversion..."; "Loading PyTorch models...";
         "✓ PyTorch models loaded"]
        ++ ("Converting YOLO model..." :: out1)
        ++ ("Converting CLIP ViT model..." :: out2)
        ++ ("Converting CLIPSeg model..." :: out3) ++ out4 /\
    export_obs w "YOLO" yolo_start tr1 out1 /\
    export_obs w "CLIP ViT" clip_vit_start tr2 out2 /\
    export_obs w "CLIPSeg" clipseg_start tr3 out3 /\
    (tr4 = [] \/ tr4 = [JsonDump Config.config (config_path self) 2]).
Proof.
  intros Hc Hw.
  destruct (convert_all_stages w self s Hc Hw)
    as (s2 & s3 & s4 & E2 & E3 & E4 & Htr & _ & _ & out & Hout).
  destruct (convert_yolo_model_run w self (loaded_state s))
    as (out1 & tr1 & Ho1 & Ht1 & _ & Hobs1).
  destruct (convert_clip_vit_model_run w self s2)
    as (out2 & tr2 & Ho2 & Ht2 & _ & Hobs2).
  destruct (convert_clipseg_model_run w self s3)
    as (out3 & tr3 & Ho3 & Ht3 & _ & Hobs3).
  destruct (save_model_config_run w self s4)
    as (out4 & tr4 & Ho4 & Ht4 & Hcases & _).
  rewrite E2 in Ho1, Ht1. rewrite E3 in Ho2, Ht2. rewrite E4 in Ho3, Ht3.
  cbn [fst] in *.
  exists tr1, out1, tr2, out2, tr3, out3, tr4, (out4 ++ out).
  split; [|split]; [| |auto].
  - apply trace_calls_of. rewrite Htr, Ht4, Ht3, Ht2, Ht1. cbn [loaded_state trace].
    rewrite <- !app_assoc. reflexivity.
  - apply stdout_printed. rewrite Hout, Ho4, Ho3, Ho2, Ho1. cbn [loaded_state stdout].
    rewrite <- !app_assoc. reflexivity.
Qed.

(** ** The loading check *)

Lemma convert_all_check_raises w self s e :
  respond w CheckLoaded = Raises e ->
  convert_all w self s =
    (State (stdout s ++ ["Starting model conversion..."; "Loading PyTorch models..."]
                     ++ (if isinstance_Exception e
                         then ["✗ Failed to load PyTorch models: " +:+ exn_str e]
                         else []))
           (fs s) (rng s) (trace s ++ [CheckLoaded]),
     if isinstance_Exception e then Normal tt else Raise e).
Proof.
  intros He. unfold convert_all. unfold_M. rewrite He. simpl_run.
  destruct (isinstance_Exception e); simpl_run; rewrite <- ?app_assoc; reflexivity.
Qed.

(** C6. If [detection_models.check_loaded()] raises, [convert_all] makes no
    further library call (no export is attempted) and leaves the files as
    they were (no configuration is written); when what was raised is an
    [Exception], the handler logs it and the method returns normally. *)
Theorem check_loaded_failure_stops_the_run w self s e :
  respond w CheckLoaded = Raises e ->
  calls_of (convert_all w self) s = [CheckLoaded] /\
  fs (fst (convert_all w self s)) = fs s /\
  (isinstance_Exception e = true ->
   snd (convert_all w self s) = Normal tt /\
   printed (convert_all w self) s
     = ["Starting model conversion..."; "Loading PyTorch models...";
        "✗ Failed to load PyTorch models: " +:+ exn_str e]).
Proof.
  intros He. unfold calls_of, printed.
  rewrite (convert_all_check_raises w self s e He). cbn [fst snd trace stdout fs].
  rewrite !drop_app_length.
  split; [reflexivity|]. split; [reflexivity|].
  intros HX. rewrite HX. split; reflexivity.
Qed.

Lemma check_loaded_failure_stops_the_run_witness :
  calls_of (convert_all check_fails self0) s0 = [CheckLoaded] /\
  fs (fst (convert_all check_fails self0 s0)) = fs s0 /\
  snd (convert_all check_fails self0 s0) = Normal tt.
Proof.
  destruct (check_loaded_failure_stops_the_run check_fails self0 s0
              (Exn "RuntimeError" true "CUDA unavailable") eq_refl)
    as (Hcalls & Hfs & Hret).
  destruct (Hret eq_refl) as [Hnormal _].
  split; [exact Hcalls|]. split; [exact Hfs|exact Hnormal].
Defined.

(** ** Isolation of export failures *)

(** C2. In a run whose loading check returned, and where what the library
    calls raise are [Exception]s: each export method returns normally;
    the three exports and then the config emitter all start, in this
    order; and every exception raised by a call of an export is reported
    by a failure line of one of the exports, the one it was raised in
    (see [export_run]). *)
Theorem export_failure_does_not_abort w self s :
  raises_only_Exception w -> respond w CheckLoaded = Returns ->
  (forall s', export_run w "YOLO" yolo_start (convert_yolo_model w self) s' /\
              export_run w "CLIP ViT" clip_vit_start (convert_clip_vit_model w self) s' /\
              export_run w "CLIPSeg" clipseg_start (convert_clipseg_model w self) s') /\
  [yolo_start; clip_vit_start; clipseg_start; config_start self]
    `sublist_of` calls_of (convert_all w self) s /\
  ["Converting YOLO model..."; "Converting CLIP ViT model...";
   "Converting CLIPSeg model..."]
    `sublist_of` printed (convert_all w self) s /\
  (forall c e, c ∈ calls_of (convert_all w self) s -> is_export_call c = true ->
               respond w c = Raises e ->
               exists model, model ∈ ["YOLO"; "CLIP ViT"; "CLIPSeg"] /\
                             failure_line model e ∈ printed (convert_all w self) s).
Proof.
  intros Hw Hc. split.
  { intros s'. auto using convert_yolo_model_run, convert_clip_vit_model_run,
                 convert_clipseg_model_run. }
  destruct (convert_all_observed w self s Hc Hw)
    as (tr1 & out1 & tr2 & out2 & tr3 & out3 & tr4 & out4
        & -> & -> & [_ L1] & [_ L2] & [_ L3] & Hcfg).
  split; [|split].
  - apply sublist_cons.
    apply (sublist_app [yolo_start] _ [clip_vit_start; clipseg_start; config_start self]).
    { apply sublist_skip, sublist_nil_l. }
    apply (sublist_app [clip_vit_start] _ [clipseg_start; config_start self]).
    { apply sublist_skip, sublist_nil_l. }
    apply (sublist_app [clipseg_start] _ [config_start self]).
    { apply sublist_skip, sublist_nil_l. }
    apply sublist_skip, sublist_nil_l.
  - apply sublist_inserts_l.
    apply (sublist_app [_] _ [_; _]); [apply sublist_skip, sublist_nil_l|].
    apply (sublist_app [_] _ [_]); [apply sublist_skip, sublist_nil_l|].
    apply sublist_inserts_r, sublist_skip, sublist_nil_l.
  - intros c e Hin Hexp HR.
    pose proof (Hw c e HR) as HX.
    apply elem_of_cons in Hin as [-> | Hin]; [discriminate Hexp|].
    rewrite !elem_of_app in Hin.
    destruct Hin as [Hin | [Hin | [Hin | Hin]]].
    + exists "YOLO". split; [elem_of_list|].
      rewrite !elem_of_app. right; left. right. eauto.
    + exists "CLIP ViT". split; [elem_of_list|].
      rewrite !elem_of_app. right; right; left. right. eauto.
    + exists "CLIPSeg". split; [elem_of_list|].
      rewrite !elem_of_app. right; right; right; left. right. eauto.
    + exfalso. destruct Hcfg as [-> | ->]; split_elem Hin; discriminate Hexp.
Qed.

Lemma export_failure_does_not_abort_witness :
  [yolo_start; clip_vit_start; clipseg_start; config_start self0]
    `sublist_of` calls_of (convert_all exports_fail self0) s0.
Proof.
  apply (export_failure_does_not_abort exports_fail self0 s0).
  - intros c e H. cbn in H. destruct (is_export_call c); [|discriminate H].
    injection H as <-. reflexivity.
  - reflexivity.
Defined.

(** ** The config emitter *)

(** C5 as stated fails: when the loading check raises, the emitter is
    not invoked and no configuration file exists afterwards. *)
Lemma config_not_emitted_when_check_fails :
  ~ (config_start self0 ∈ calls_of (convert_all check_fails self0) s0) /\
  fs (fst (convert_all check_fails self0 s0)) !! config_path self0 = None.
Proof.
  unfold calls_of. rewrite (convert_all_check_raises check_fails self0 s0 _ eq_refl).
  cbn [fst trace fs s0 app length drop]. split; [|reflexivity].
  intros H. apply list_elem_of_singleton in H. discriminate H.
Qed.

(** C5, amended. In a run whose loading check returned (and where what
    the library calls raise are [Exception]s), whatever the exports do,
    the config emitter starts after the calls of the three exports, no
    export call follows it, and when its own two calls return the
    configuration file holds the complete document. *)
Theorem config_emitted_after_exports w self s :
  raises_only_Exception w -> respond w CheckLoaded = Returns ->
  exists before after,
    calls_of (convert_all w self) s = before ++ config_start self :: after /\
    [CheckLoaded; yolo_start; clip_vit_start; clipseg_start] `sublist_of` before /\
    Forall (fun c => is_export_call c = false) (config_start self :: after) /\
    (respond w (config_start self) = Returns ->
     respond w (JsonDump Config.config (config_path self) 2) = Returns ->
     fs (fst (convert_all w self s)) !! config_path self
       = Some (JsonText Config.config 2)).
Proof.
  intros Hw Hc.
  destruct (convert_all_observed w self s Hc Hw)
    as (tr1 & out1 & tr2 & out2 & tr3 & out3 & tr4 & out4
        & Hcalls & _ & _ & _ & _ & Hcfg).
  exists (CheckLoaded :: (yolo_start :: tr1) ++ (clip_vit_start :: tr2)
            ++ (clipseg_start :: tr3)), tr4.
  split; [|split; [|split]].
  - rewrite Hcalls. repeat (cbn [app]; rewrite <- ?app_assoc). reflexivity.
  - apply sublist_skip.
    apply (sublist_app [_] _ [_; _]); [apply sublist_skip, sublist_nil_l|].
    apply (sublist_app [_] _ [_]); [apply sublist_skip, sublist_nil_l|].
    apply sublist_skip, sublist_nil_l.
  - destruct Hcfg as [-> | ->]; repeat constructor.
  - intros Ho Hd.
    destruct (convert_all_stages w self s Hc Hw)
      as (s2 & s3 & s4 & _ & _ & _ & _ & -> & _).
    destruct (save_model_config_run w self s4) as (? & ? & _ & _ & _ & Hsave).
    rewrite (Hsave Ho Hd). cbn [fst fs]. apply lookup_insert_eq.
Qed.

Lemma config_emitted_after_exports_witness :
  exists before after,
    calls_of (convert_all exports_fail self0) s0 = before ++ config_start self0 :: after /\
    [CheckLoaded; yolo_start; clip_vit_start; clipseg_start] `sublist_of` before /\
    Forall (fun c => is_export_call c = false) (config_start self0 :: after) /\
    (respond exports_fail (config_start self0) = Returns ->
     respond exports_fail (JsonDump Config.config (config_path self0) 2) = Returns ->
     fs (fst (convert_all exports_fail self0 s0)) !! config_path self0
       = Some (JsonText Config.config 2)).
Proof.
  apply (config_emitted_after_exports exports_fail self0 s0).
  - intros c e H. cbn in H. destruct (is_export_call c); [|discriminate H].
    injection H as <-. reflexivity.
  - reflexivity.
Defined.

(** ** The YOLO output check *)

Lemma convert_yolo_model_not_found w self s :
  respond w yolo_start = Returns ->
  respond w (YoloExport yolo_export) = Returns ->
  yolo_export_writes w = false ->
  fs s !! yolo_onnx_path = None ->
  convert_yolo_model w self s =
    (State (stdout s ++ ["Converting YOLO model...";
                         "✗ YOLO ONNX file not found after export"])
           (fs s) (rng s)
           (trace s ++ [yolo_start; YoloExport yolo_export]),
     Normal tt).
Proof.
  unfold yolo_start. intros H1 H2 Hwr Hfs.
  unfold convert_yolo_model. unfold_M. rewrite H1. simpl_run. rewrite H2. simpl_run.
  cbn [effect]. rewrite Hwr, Hfs.
  rewrite bool_decide_eq_false_2 by (intros [? ?]; discriminate).
  simpl_run. rewrite <- !app_assoc. reflexivity.
Qed.

(** C9. When the YOLO export call returns and [yolo11m-seg.onnx] is not
    there (it was not there before and the export left none), the run
    prints the not-found line, does not rename anything, and goes on with
    the CLIP ViT export, the CLIPSeg export and the config emitter. *)
Theorem missing_yolo_output_is_not_fatal w self s :
  raises_only_Exception w -> respond w CheckLoaded = Returns ->
  respond w yolo_start = Returns ->
  respond w (YoloExport yolo_export) = Returns ->
  yolo_export_writes w = false ->
  fs s !! yolo_onnx_path = None ->
  snd (convert_yolo_model w self (loaded_state s)) = Normal tt /\
  exists rest out,
    calls_of (convert_all w self) s
      = CheckLoaded :: yolo_start :: YoloExport yolo_export :: rest /\
    [clip_vit_start; clipseg_start; config_start self] `sublist_of` rest /\
    printed (convert_all w self) s
      = ["Starting model conversion..."; "Loading PyTorch models...";
         "✓ PyTorch models loaded"; "Converting YOLO model...";
         "✗ YOLO ONNX file not found after export";
         "Converting CLIP ViT model..."] ++ out /\
    "Converting CLIPSeg model..." ∈ out.
Proof.
  intros Hw Hc H1 H2 Hwr Hfs.
  pose proof (convert_yolo_model_not_found w self (loaded_state s) H1 H2 Hwr Hfs) as Ey.
  split; [rewrite Ey; reflexivity|].
  destruct (convert_all_stages w self s Hc Hw)
    as (s2 & s3 & s4 & E2 & E3 & E4 & Htr & _ & _ & out & Hout).
  rewrite Ey in E2. injection E2 as <-.
  match type of E3 with convert_clip_vit_model _ _ ?s2 = _ =>
    destruct (convert_clip_vit_model_run w self s2) as (out2 & tr2 & Ho2 & Ht2 & _ & _)
  end.
  destruct (convert_clipseg_model_run w self s3) as (out3 & tr3 & Ho3 & Ht3 & _ & _).
  destruct (save_model_config_run w self s4) as (out4 & tr4 & Ho4 & Ht4 & _ & _).
  rewrite E3 in Ho2, Ht2. rewrite E4 in Ho3, Ht3. cbn [fst] in *.
  exists ((clip_vit_start :: tr2) ++ (clipseg_start :: tr3) ++ config_start self :: tr4),
         (out2 ++ ("Converting CLIPSeg model..." :: out3) ++ out4 ++ out).
  split; [|split; [|split]].
  - apply trace_calls_of. rewrite Htr, Ht4, Ht3, Ht2. cbn [loaded_state trace].
    repeat (cbn [app]; rewrite <- ?app_assoc). reflexivity.
  - apply (sublist_app [_] _ [_; _]); [apply sublist_skip, sublist_nil_l|].
    apply (sublist_app [_] _ [_]); [apply sublist_skip, sublist_nil_l|].
    apply sublist_skip, sublist_nil_l.
  - apply stdout_printed. rewrite Hout, Ho4, Ho3, Ho2. cbn [loaded_state stdout].
    repeat (cbn [app]; rewrite <- ?app_assoc). reflexivity.
  - rewrite !elem_of_app. right; left. apply list_elem_of_here.
Qed.

Lemma missing_yolo_output_is_not_fatal_witness :
  snd (convert_yolo_model yolo_leaves_nothing self0 (loaded_state s0)) = Normal tt /\
  exists rest out,
    calls_of (convert_all yolo_leaves_nothing self0) s0
      = CheckLoaded :: yolo_start :: YoloExport yolo_export :: rest /\
    [clip_vit_start; clipseg_start; config_start self0] `sublist_of` rest /\
    printed (convert_all yolo_leaves_nothing self0) s0
      = ["Starting model conversion..."; "Loading PyTorch models...";
         "✓ PyTorch models loaded"; "Converting YOLO model...";
         "✗ YOLO ONNX file not found after export";
         "Converting CLIP ViT model..."] ++ out /\
    "Converting CLIPSeg model..." ∈ out.
Proof.
  apply (missing_yolo_output_is_not_fatal yolo_leaves_nothing self0 s0).
  - intros c e H. discriminate H.
  - reflexivity.
  - reflexivity.
  - reflexivity.
  - reflexivity.
  - reflexivity.
Defined.

(** ** A run in which every library call returns *)

Section AllReturn.

Variable w : world.
Hypothesis Hall : forall c, respond w c = Returns.
Hypothesis Hwr : yolo_export_writes w = true.

Lemma all_return_raises_only_Exception : raises_only_Exception w.
Proof. intros c e H. rewrite Hall in H. discriminate H. Qed.

Lemma convert_yolo_model_all_return self s :
  fs (fst (convert_yolo_model w self s))
    = <[output_dir self // ["yolo11m-seg.onnx"] := YoloGraph yolo_export]>
        (delete yolo_onnx_path (fs s)).
Proof.
  unfold convert_yolo_model. unfold_M. rewrite !Hall. simpl_run.
  cbn [effect]. rewrite Hwr, lookup_insert_eq.
  rewrite bool_decide_eq_true_2 by eauto.
  rewrite ?Hall. simpl_run. cbn [effect]. rewrite ?Hwr, ?lookup_insert_eq, ?delete_insert_eq.
  reflexivity.
Qed.

Lemma convert_clip_vit_model_all_return self s :
  fs (fst (convert_clip_vit_model w self s))
    = <[output_dir self // ["clip_vision_encoder.onnx"] := OnnxGraph (clip_vision_export self)]>
        (<[output_dir self // ["clip_text_encoder.onnx"] := OnnxGraph (clip_text_export self)]>
           (fs s)).
Proof.
  unfold convert_clip_vit_model. unfold_M. rewrite !Hall. simpl_run.
  rewrite ?Hall. simpl_run. reflexivity.
Qed.

Lemma convert_clipseg_model_all_return self s :
  fs (fst (convert_clipseg_model w self s))
    = <[output_dir self // ["clipseg.onnx"] := OnnxGraph (clipseg_export self)]> (fs s).
Proof.
  unfold convert_clipseg_model. unfold_M. rewrite !Hall. simpl_run.
  rewrite ?Hall. simpl_run. reflexivity.
Qed.

Lemma main_all_return script_dir s :
  let self := {| output_dir := script_dir // default_output_dir |} in
  snd (main w script_dir s) = Normal tt /\
  fs (fst (main w script_dir s)) =
    <[config_path self := JsonText Config.config 2]>
    (<[output_dir self // ["clipseg.onnx"] := OnnxGraph (clipseg_export self)]>
    (<[output_dir self // ["clip_vision_encoder.onnx"] := OnnxGraph (clip_vision_export self)]>
    (<[output_dir self // ["clip_text_encoder.onnx"] := OnnxGraph (clip_text_export self)]>
    (<[output_dir self // ["yolo11m-seg.onnx"] := YoloGraph yolo_export]>
    (delete yolo_onnx_path (fs s)))))).
Proof.
  intros self.
  unfold main, init. unfold mbind, M_bind, mret, M_ret, invoke, print.
  rewrite Hall. cbn [fst snd stdout fs rng trace effect]. fold self.
  match goal with |- context [convert_all w self ?st] => set (si := st) end.
  destruct (convert_all_stages w self si (Hall _) all_return_raises_only_Exception)
    as (s2 & s3 & s4 & E2 & E3 & E4 & _ & -> & -> & _).
  destruct (save_model_config_run w self s4) as (? & ? & _ & _ & _ & Hsave).
  rewrite (Hsave (Hall _) (Hall _)). cbn [fst snd fs]. split; [reflexivity|].
  pose proof (convert_yolo_model_all_return self (loaded_state si)) as F2.
  pose proof (convert_clip_vit_model_all_return self s2) as F3.
  pose proof (convert_clipseg_model_all_return self s3) as F4.
  rewrite E2 in F2. rewrite E3 in F3. rewrite E4 in F4. cbn [fst] in *.
  rewrite F4, F3, F2. reflexivity.
Qed.

End AllReturn.

Lemma elem_of_onnx_files (m : gmap (list string) file) (p : list string) :
  p ∈ onnx_files m <-> exists f, m !! p = Some f /\ is_onnx f = true.
Proof.
  unfold onnx_files. rewrite elem_of_dom. unfold is_Some.
  setoid_rewrite map_lookup_filter_Some. reflexivity.
Qed.

Lemma graph_paths_NoDup self : NoDup (config_path self :: graph_paths self).
Proof.
  unfold graph_paths, config_path, Path.div.
  repeat (apply NoDup_cons; split;
          [rewrite ?elem_of_cons, elem_of_nil; intros H;
           repeat (destruct H as [H|H]; [apply app_inv_head in H; discriminate H|]);
           exact H|]).
  apply NoDup_nil. done.
Qed.

Lemma written_files_fresh self :
  let m : gmap (list string) file :=
    <[config_path self := JsonText Config.config 2]>
    (<[output_dir self // ["clipseg.onnx"] := OnnxGraph (clipseg_export self)]>
    (<[output_dir self // ["clip_vision_encoder.onnx"] := OnnxGraph (clip_vision_export self)]>
    (<[output_dir self // ["clip_text_encoder.onnx"] := OnnxGraph (clip_text_export self)]>
    (<[output_dir self // ["yolo11m-seg.onnx"] := YoloGraph yolo_export]> ∅)))) in
  dom m = list_to_set (config_path self :: graph_paths self) /\
  onnx_files m = list_to_set (graph_paths self).
Proof.
  intros m. split.
  - subst m. rewrite !dom_insert_L, dom_empty_L. unfold graph_paths. cbn [list_to_set].
    apply set_eq. intros p.
    rewrite !elem_of_union, !elem_of_singleton, elem_of_empty. tauto.
  - pose proof (graph_paths_NoDup self) as ND.
    apply NoDup_cons in ND as [Hcfg _].
    apply set_eq. intros p. rewrite elem_of_onnx_files, elem_of_list_to_set.
    subst m. unfold graph_paths in *. split.
    + intros (f & Hf & Hon). rewrite !lookup_insert in Hf.
      rewrite lookup_empty in Hf.
      repeat case_decide; simplify_eq; try discriminate Hon; elem_of_list.
    + intros Hin.
      assert (p <> config_path self) as Hne by (intros ->; contradiction).
      rewrite lookup_insert_ne by congruence.
      rewrite !lookup_insert.
      repeat case_decide; eauto.
      split_elem Hin; congruence.
Qed.

(** ** C3: the files of a successful run *)

(** C3 as stated fails: the run in which everything succeeds leaves four
    inference graphs, not three. *)
Lemma successful_run_has_four_graph_files :
  size (onnx_files (fs (fst (main all_return script_dir0 s0)))) <> 3%nat.
Proof. vm_compute. intros H. discriminate H. Qed.

(** C3, amended. When every library call returns and ultralytics leaves
    its file, the program ends normally and the files are those it
    started with, minus the moved [yolo11m-seg.onnx], plus five: four
    inference graphs ([yolo11m-seg.onnx], [clip_text_encoder.onnx],
    [clip_vision_encoder.onnx], [clipseg.onnx]) and [config.json], all
    directly under [browser-extension/models] next to the script.
    Started with no file, exactly these five exist, four of them
    graphs. *)
Theorem successful_run_writes_graphs_and_config w script_dir s :
  (forall c, respond w c = Returns) -> yolo_export_writes w = true ->
  let self := {| output_dir := script_dir // default_output_dir |} in
  let m := fs (fst (main w script_dir s)) in
  snd (main w script_dir s) = Normal tt /\
  m = <[config_path self := JsonText Config.config 2]>
      (<[output_dir self // ["clipseg.onnx"] := OnnxGraph (clipseg_export self)]>
      (<[output_dir self // ["clip_vision_encoder.onnx"] := OnnxGraph (clip_vision_export self)]>
      (<[output_dir self // ["clip_text_encoder.onnx"] := OnnxGraph (clip_text_export self)]>
      (<[output_dir self // ["yolo11m-seg.onnx"] := YoloGraph yolo_export]>
      (delete yolo_onnx_path (fs s)))))) /\
  (fs s = ∅ ->
   dom m = list_to_set (config_path self :: graph_paths self) /\
   onnx_files m = list_to_set (graph_paths self) /\
   size (onnx_files m) = 4%nat) /\
  Forall (fun p => exists name,
            p = script_dir // ["browser-extension"; "models"] // [name])
         (config_path self :: graph_paths self).
Proof.
  intros Hall Hwr self m.
  destruct (main_all_return w Hall Hwr script_dir s) as [Hret Hfs].
  fold self in Hfs. fold m in Hfs.
  split; [exact Hret|]. split; [exact Hfs|]. split.
  - intros Hempty. rewrite Hempty, delete_empty in Hfs.
    destruct (written_files_fresh self) as [Hdom Honnx].
    cbv zeta in Hdom, Honnx. rewrite <- Hfs in Hdom, Honnx.
    split; [exact Hdom|]. split; [exact Honnx|].
    rewrite Honnx, size_list_to_set; [reflexivity|].
    pose proof (graph_paths_NoDup self) as ND. apply NoDup_cons in ND as [_ ND]. exact ND.
  - unfold graph_paths, config_path. subst self. cbn [output_dir].
    repeat constructor; eexists; reflexivity.
Qed.

Lemma successful_run_writes_graphs_and_config_witness :
  let self := {| output_dir := script_dir0 // default_output_dir |} in
  let m := fs (fst (main all_return script_dir0 s0)) in
  dom m = list_to_set (config_path self :: graph_paths self) /\
  onnx_files m = list_to_set (graph_paths self) /\
  size (onnx_files m) = 4%nat.
Proof.
  intros self m.
  apply (successful_run_writes_graphs_and_config all_return script_dir0 s0).
  - intros c. reflexivity.
  - reflexivity.
  - reflexivity.
Defined.

(** ** C7: the emitted document does not depend on the run *)

Lemma save_model_config_completed w self s :
  snd (save_model_config w self s) = Normal tt ->
  fs (fst (save_model_config w self s)) !! config_path self
    = Some (JsonText Config.config 2).
Proof.
  unfold save_model_config. run w; intros H; try discriminate H.
  cbn [effect]. apply lookup_insert_eq.
Qed.

Lemma save_model_config_dumps w self s doc fp indent :
  JsonDump doc fp indent ∈ calls_of (save_model_config w self) s ->
  doc = Config.config /\ fp = config_path self /\ indent = 2.
Proof.
  destruct (save_model_config_run w self s) as (out & tr & _ & Htr & Hcases & _).
  rewrite (trace_calls_of _ _ _ Htr). intros Hin.
  apply elem_of_cons in Hin as [Hin | Hin]; [discriminate Hin|].
  destruct Hcases as [-> | ->].
  - apply elem_of_nil in Hin. contradiction.
  - apply list_elem_of_singleton in Hin. injection Hin as -> -> ->. auto.
Qed.

(** C7. Any two invocations of [save_model_config] that complete, in
    whatever worlds, states and output directories, leave the same
    contents in their configuration files: the dump of [Config.config]
    with [indent=2]; and whatever document an invocation hands to
    [json.dump] is that document. *)
Theorem save_model_config_deterministic w1 w2 self1 self2 s1 s2 :
  snd (save_model_config w1 self1 s1) = Normal tt ->
  snd (save_model_config w2 self2 s2) = Normal tt ->
  fs (fst (save_model_config w1 self1 s1)) !! config_path self1
    = fs (fst (save_model_config w2 self2 s2)) !! config_path self2 /\
  fs (fst (save_model_config w1 self1 s1)) !! config_path self1
    = Some (JsonText Config.config 2) /\
  (forall doc fp indent,
     JsonDump doc fp indent ∈ calls_of (save_model_config w1 self1) s1 ++
                              calls_of (save_model_config w2 self2) s2 ->
     doc = Config.config /\ indent = 2).
Proof.
  intros H1 H2.
  rewrite (save_model_config_completed w1 self1 s1 H1).
  rewrite (save_model_config_completed w2 self2 s2 H2).
  repeat split; try reflexivity;
    apply elem_of_app in H as [H | H];
    apply save_model_config_dumps in H; tauto.
Qed.

Lemma save_model_config_deterministic_witness :
  fs (fst (save_model_config all_return self0 s0)) !! config_path self0
    = fs (fst (save_model_config yolo_leaves_nothing {| output_dir := ["tmp"] |}
                 (loaded_state s0))) !! config_path {| output_dir := ["tmp"] |}.
Proof.
  apply (save_model_config_deterministic all_return yolo_leaves_nothing
           self0 {| output_dir := ["tmp"] |} s0 (loaded_state s0)).
  - reflexivity.
  - reflexivity.
Defined.

(** ** The label configuration *)

Example yolo_alias_values_config :
  yolo_alias_values Config.config
  = ["bicycle"; "car"; "truck"; "bus"; "truck"; "motorcycle"; "boat";
     "fire hydrant"; "parking meter"; "fire hydrant"; "parking meter"; "traffic light"].
Proof. reflexivity. Qed.

Example threshold_keys_config :
  threshold_keys Config.config
  = ["bridge"; "chimney"; "crosswalk"; "mountain"; "palm tree"; "stair"; "tractor"; "taxi"].
Proof. reflexivity. Qed.

Example clip_labels_of_config : clip_labels_of Config.config = Config.clip_labels.
Proof. reflexivity. Qed.

Example challenge_alias_values_config :
  challenge_alias_values Config.config = snd <$> Config.challenge_alias.
Proof. reflexivity. Qed.

(** C4 as stated fails: [yolo_alias] lists "truck", which is not one of
    [clip_labels]. *)
Lemma truck_breaks_tables_within_clip_labels :
  ~ tables_within_clip_labels Config.config.
Proof.
  intros H. specialize (H "truck").
  assert (Hno : bool_decide ("truck" ∈ clip_labels_of Config.config) = false)
    by (vm_compute; reflexivity).
  apply bool_decide_eq_false in Hno. apply Hno, H.
  apply (bool_decide_unpack _). vm_compute. exact I.
Qed.

(** C4, amended. Every key of the threshold table is one of
    [clip_labels]; every category the alias tables refer to is one of
    [clip_labels], except "truck" and "parking meter", which are classes
    of the YOLO detector. *)
Theorem tables_within_model_vocabularies :
  Forall (fun x => x ∈ clip_labels_of Config.config) (threshold_keys Config.config) /\
  Forall (fun x => x ∈ clip_labels_of Config.config \/
                   (x = "truck" \/ x = "parking meter") /\ x ∈ yolo_classes_of Config.config)
         (yolo_alias_values Config.config ++ challenge_alias_values Config.config).
Proof.
  split; apply (bool_decide_unpack _); vm_compute; exact I.
Qed.

(** ** Thresholds *)

(** C8. The threshold table of the emitted document has eight values,
    each a float lying in [0, 1]. *)
Theorem thresholds_are_floats_in_unit_interval :
  length (threshold_values Config.config) = 8%nat /\
  Forall (fun v => exists q, v = JFloat q /\ (0 <= q)%Q /\ (q <= 1)%Q)
         (threshold_values Config.config).
Proof.
  split; [reflexivity|].
  cbv [threshold_values label_table Json.values Json.items Json.get_path Json.get
       Config.config Config.labels default].
  cbn -[float_lit].
  repeat constructor; eexists; (split; [reflexivity|]);
    unfold float_lit, Qle; cbn; lia.
Qed.

(** ** C1: the placeholder tensors *)

Lemma numel_of_pos (sh : list nat) :
  Forall (fun d => (0 < d)%nat) sh -> (0 < numel_of sh)%nat.
Proof.
  induction 1 as [|d sh Hd _ IH]; cbn [numel_of foldr]; [lia|].
  apply Nat.mul_pos_pos; assumption.
Qed.

Lemma rand_placeholder_ok (size : list nat) (g : Torch.generator) :
  Forall (fun d => (0 < d)%nat) size ->
  placeholder_ok size (fst (Torch.rand size g)).
Proof.
  intros Hpos. split; [reflexivity|]. split; [apply rand_elements_within|].
  apply tensor_min_max_within; [|apply rand_elements_within].
  unfold numel. cbn [Torch.rand fst shape]. apply numel_of_pos, Hpos.
Qed.

Lemma size_224_pos : Forall (fun d => (0 < d)%nat) [1; 3; 224; 224]%nat.
Proof. repeat constructor; lia. Qed.

Lemma size_352_pos : Forall (fun d => (0 < d)%nat) [1; 3; 352; 352]%nat.
Proof. repeat constructor; lia. Qed.

Lemma convert_clip_vit_model_placeholders w self s :
  placeholders (calls_of (convert_clip_vit_model w self) s) = [] \/
  placeholders (calls_of (convert_clip_vit_model w self) s)
    = [fst (Torch.rand [1; 3; 224; 224]%nat (rng s))].
Proof.
  unfold calls_of, convert_clip_vit_model. run w.
  all: normalize_lists; rewrite drop_app_length; cbn [placeholders omap].
  all: first [left; reflexivity | right; reflexivity].
Qed.

Lemma convert_clipseg_model_placeholders w self s :
  placeholders (calls_of (convert_clipseg_model w self) s) = [] \/
  placeholders (calls_of (convert_clipseg_model w self) s)
    = [fst (Torch.rand [1; 3; 352; 352]%nat (rng s))].
Proof.
  unfold calls_of, convert_clipseg_model. run w.
  all: normalize_lists; rewrite drop_app_length; cbn [placeholders omap].
  all: first [left; reflexivity | right; reflexivity].
Qed.

Lemma convert_yolo_model_placeholders w self s :
  placeholders (calls_of (convert_yolo_model w self) s) = [].
Proof.
  unfold calls_of, convert_yolo_model. run w.
  all: normalize_lists; rewrite drop_app_length; reflexivity.
Qed.

Lemma test_dummy_image_ranges_passes (size : list nat) (g : Torch.generator) :
  Forall (fun d => (0 < d)%nat) size ->
  Test.test_dummy_image_ranges size g = Test.Passed.
Proof.
  intros Hpos. destruct (rand_placeholder_ok size g Hpos) as (_ & _ & Hmin & Hmax).
  unfold Test.test_dummy_image_ranges.
  set (t := fst (Torch.rand size g)) in *.
  apply Qle_bool_iff in Hmin as Hmin'. apply Qle_bool_iff in Hmax as Hmax'.
  rewrite Hmin', Hmax'. cbn [negb].
  assert (Qle_bool 4 (tensor_max t) = false) as ->.
  { apply not_true_is_false. intros H. apply Qle_bool_iff in H.
    apply (Qle_not_lt _ _ (Qle_trans _ _ _ H Hmax)). reflexivity. }
  assert (Qle_bool (tensor_min t) (-4) = false) as ->.
  { apply not_true_is_false. intros H. apply Qle_bool_iff in H.
    apply (Qle_not_lt _ _ (Qle_trans _ _ _ Hmin H)). reflexivity. }
  reflexivity.
Qed.

(** C1. Whatever the libraries answer and whatever the generator holds,
    every placeholder tensor handed to a processor by the CLIP ViT export
    has shape (1,3,224,224), every one handed over by the CLIPSeg export
    has shape (1,3,352,352), and each has all its elements, its minimum
    and its maximum in [0, 1]; the YOLO export builds none.  The two
    range tests of the test file pass for every generator state. *)
Theorem placeholder_tensors_in_unit_interval w self s :
  Forall (placeholder_ok [1; 3; 224; 224]%nat)
         (placeholders (calls_of (convert_clip_vit_model w self) s)) /\
  Forall (placeholder_ok [1; 3; 352; 352]%nat)
         (placeholders (calls_of (convert_clipseg_model w self) s)) /\
  placeholders (calls_of (convert_yolo_model w self) s) = [] /\
  Test.test_dummy_image_ranges [1; 3; 224; 224]%nat (rng s) = Test.Passed /\
  Test.test_dummy_image_ranges [1; 3; 352; 352]%nat (rng s) = Test.Passed.
Proof.
  split; [|split; [|split; [|split]]].
  - destruct (convert_clip_vit_model_placeholders w self s) as [-> | ->];
      [constructor | constructor; [|constructor]].
    apply rand_placeholder_ok, size_224_pos.
  - destruct (convert_clipseg_model_placeholders w self s) as [-> | ->];
      [constructor | constructor; [|constructor]].
    apply rand_placeholder_ok, size_352_pos.
  - apply convert_yolo_model_placeholders.
  - apply test_dummy_image_ranges_passes, size_224_pos.
  - apply test_dummy_image_ranges_passes, size_352_pos.
Qed.

Example placeholders_of_a_successful_clip_vit_export :
  shape <$> placeholders (calls_of (convert_clip_vit_model all_return self0) s0)
  = [[1; 3; 224; 224]%nat].
Proof. reflexivity. Qed.

(** ** C10: conversion to 8-bit pixels *)

Lemma truncate_bounds (y : Q) :
  (0 <= y)%Q -> (y <= inject_Z 255)%Q -> 0 <= Numpy.truncate y <= 255.
Proof.
  destruct y as [n d]. unfold Qle, Numpy.truncate. cbn. intros Hlo Hhi.
  rewrite Z.mul_1_r in *.
  split.
  - apply Z.quot_pos; lia.
  - apply Z.quot_le_upper_bound; lia.
Qed.

Lemma rounded_product_bounds (fl : Q -> Q) (x : Q) :
  Numpy.is_rounding fl -> (0 <= x)%Q -> (x <= 1)%Q ->
  (0 <= fl (x * inject_Z 255))%Q /\ (fl (x * inject_Z 255) <= inject_Z 255)%Q.
Proof.
  intros (Hmono & H0 & H255) Hlo Hhi. split.
  - apply Qle_trans with (fl 0%Q); [rewrite H0; apply Qle_refl|].
    apply Hmono. destruct x as [n d]. unfold Qle in *. cbn in *. lia.
  - apply Qle_trans with (fl (inject_Z 255)); [|rewrite H255; apply Qle_refl].
    apply Hmono. destruct x as [n d]. unfold Qle in *. cbn in *. lia.
Qed.

Lemma to_uint8_scaled (fl : Q -> Q) (x : Q) :
  Numpy.is_rounding fl -> (0 <= x)%Q -> (x <= 1)%Q ->
  Numpy.to_uint8 (fl (x * inject_Z 255)%Q) = Numpy.truncate (fl (x * inject_Z 255)%Q) /\
  0 <= Numpy.to_uint8 (fl (x * inject_Z 255)%Q) <= 255.
Proof.
  intros Hfl Hlo Hhi.
  destruct (rounded_product_bounds fl x Hfl Hlo Hhi) as [Hlo' Hhi'].
  pose proof (truncate_bounds _ Hlo' Hhi') as Hb.
  unfold Numpy.to_uint8. rewrite Z.mod_small by lia. auto.
Qed.

Lemma permute_index_in_range (h w i : nat) :
  (i < h * (w * (3 * 1)))%nat ->
  (i mod 3 * (h * w) + i / 3 < 1 * (3 * (h * (w * 1))))%nat.
Proof.
  intros Hi.
  pose proof (Nat.mod_upper_bound i 3 ltac:(lia)) as Hm.
  pose proof (Nat.div_mod_eq i 3) as Hd.
  assert (i / 3 < h * w)%nat by nia.
  nia.
Qed.

Lemma np_array_elements_within (t : tensor) (h w : nat) :
  shape t = [1; 3; h; w]%nat -> elements_within 0 1 t ->
  let np_array := Torch.permute120 (Torch.squeeze0 t) in
  shape np_array = [h; w; 3]%nat /\ elements_within 0 1 np_array.
Proof.
  intros Hsh Hin. unfold Torch.squeeze0, Torch.permute120. rewrite Hsh.
  cbn [shape data]. split; [reflexivity|].
  intros i Hi. unfold numel in Hi. cbn [shape numel_of foldr] in Hi.
  cbn [data]. apply Hin. unfold numel. rewrite Hsh. cbn [numel_of foldr].
  apply permute_index_in_range, Hi.
Qed.

(** C10. For a tensor of shape (1,3,H,W) with elements in [0, 1], and
    whatever way float32 rounds the products: the array the test builds
    still has its elements in [0, 1]; multiplying by 255 and converting to
    uint8 gives, at every index, the integer part of the rounded product,
    which lies in [0, 255] (the reduction modulo 2^8 changes nothing); and
    [Image.fromarray] accepts the result, as an RGB image of size
    (W, H). *)
Theorem uint8_conversion_stays_in_range (fl : Q -> Q) (t : tensor) (h w : nat) :
  Numpy.is_rounding fl ->
  shape t = [1; 3; h; w]%nat -> elements_within 0 1 t ->
  let '(np_array, uint8_array, pil) := Test.pil_image_conversion fl t in
  elements_within 0 1 np_array /\
  (forall i, (i < numel uint8_array)%nat ->
     0 <= data uint8_array i <= 255 /\
     data uint8_array i = Numpy.truncate (fl (data np_array i * inject_Z 255)%Q)) /\
  pil = PIL.Created (PIL.Image "RGB" (w, h)).
Proof.
  intros Hfl Hsh Hin.
  destruct (np_array_elements_within t h w Hsh Hin) as [Hshape Hnp].
  unfold Test.pil_image_conversion.
  set (np_array := Torch.permute120 (Torch.squeeze0 t)) in *.
  split; [exact Hnp|]. split.
  - intros i Hi. unfold numel in Hi. cbn [Numpy.astype_uint8 Numpy.mul_scalar shape] in Hi.
    destruct (Hnp i Hi) as [Hlo Hhi].
    cbn [Numpy.astype_uint8 Numpy.mul_scalar data].
    destruct (to_uint8_scaled fl _ Hfl Hlo Hhi) as [Heq Hb]. auto.
  - unfold PIL.fromarray. cbn [Numpy.astype_uint8 Numpy.mul_scalar shape].
    rewrite Hshape. reflexivity.
Qed.

Lemma exact_is_rounding : Numpy.is_rounding exact.
Proof. split; [intros x y H; exact H | split; reflexivity]. Qed.

Lemma uint8_conversion_stays_in_range_witness :
  let '(np_array, uint8_array, pil) := Test.pil_image_conversion exact small_tensor in
  elements_within 0 1 np_array /\
  (forall i, (i < numel uint8_array)%nat ->
     0 <= data uint8_array i <= 255 /\
     data uint8_array i = Numpy.truncate (exact (data np_array i * inject_Z 255)%Q)) /\
  pil = PIL.Created (PIL.Image "RGB" (2, 2)%nat).
Proof.
  apply (uint8_conversion_stays_in_range exact small_tensor 2 2).
  - split; [intros x y H; exact H | split; reflexivity].
  - reflexivity.
  - intros i _. unfold small_tensor, Qle. cbn [data Qnum Qden]. lia.
Defined.

Example small_tensor_pixels :
  to_list (Test.pil_image_conversion exact small_tensor).1.2
  = [0; 92; 185; 23; 115; 208; 46; 139; 231; 69; 162; 255].
Proof. reflexivity. Qed.

(** X17. [test_pil_image_conversion_compatibility] cannot fail: for every
    height and width above zero, every generator state and every way
    float32 rounds the products, its range assertions hold,
    [Image.fromarray] raises nothing and the size assertion holds. *)
Lemma test_pil_image_conversion_passes (fl : Q -> Q) (h w : nat) (g : Torch.generator) :
  Numpy.is_rounding fl -> (0 < h)%nat -> (0 < w)%nat ->
  Test.test_pil_image_conversion_compatibility fl [1; 3; h; w]%nat g = Test.Passed.
Proof.
  intros Hfl Hh Hw.
  unfold Test.test_pil_image_conversion_compatibility.
  set (t := fst (Torch.rand [1; 3; h; w]%nat g)).
  pose proof (uint8_conversion_stays_in_range fl t h w Hfl eq_refl
                (rand_elements_within _ g)) as H.
  destruct (Test.pil_image_conversion fl t) as [[np_array uint8_array] pil] eqn:E.
  destruct H as (Hnp & _ & ->).
  assert (Hshape : shape np_array = [h; w; 3]%nat).
  { unfold Test.pil_image_conversion in E. inversion E. reflexivity. }
  assert (Hne : (0 < numel np_array)%nat).
  { unfold numel. rewrite Hshape. apply numel_of_pos. repeat constructor; lia. }
  destruct (tensor_min_max_within 0 1 np_array Hne Hnp) as [Hmin Hmax].
  unfold Numpy.min, Numpy.max.
  apply Qle_bool_iff in Hmin. apply Qle_bool_iff in Hmax.
  rewrite Hmin, Hmax. cbn [negb lookup list_lookup PIL.size].
  rewrite bool_decide_eq_true_2 by reflexivity. reflexivity.
Qed.

(** ** The constructor and the main block *)

Lemma main_run w script_dir s :
  let self := {| output_dir := script_dir // default_output_dir |} in
  let mkdir := Mkdir (script_dir // ["browser-extension"; "models"]) true in
  match respond w mkdir with
  | Raises e =>
      main w script_dir s
      = (State (stdout s) (fs s) (rng s) (trace s ++ [mkdir]), Raise e)
  | Returns =>
      main w script_dir s
      = convert_all w self
          (State (stdout s ++ ["Output directory: " +:+ Path.str (output_dir self)])
                 (fs s) (rng s) (trace s ++ [mkdir]))
  end.
Proof.
  intros self mkdir. unfold main, init. unfold mbind, M_bind, mret, M_ret, invoke, print.
  fold self. change (Mkdir (output_dir self) true) with mkdir.
  destruct (respond w mkdir); reflexivity.
Qed.

(** X1. The main block first creates the output directory,
    [browser-extension/models] next to the script, with [exist_ok=True].
    If that call raises, whatever the class of the exception, nothing is
    printed, no other library call is made and the exception leaves the
    program; otherwise the directory is announced and [convert_all] runs
    on the converter built for that directory. *)
Theorem main_creates_output_dir_first w script_dir s :
  let self := {| output_dir := script_dir // default_output_dir |} in
  let mkdir := Mkdir (script_dir // ["browser-extension"; "models"]) true in
  match respond w mkdir with
  | Raises e =>
      calls_of (main w script_dir) s = [mkdir] /\
      printed (main w script_dir) s = [] /\
      fs (fst (main w script_dir s)) = fs s /\
      snd (main w script_dir s) = Raise e
  | Returns =>
      main w script_dir s
      = convert_all w self
          (State (stdout s ++ ["Output directory: " +:+ Path.str (output_dir self)])
                 (fs s) (rng s) (trace s ++ [mkdir]))
  end.
Proof.
  intros self mkdir. pose proof (main_run w script_dir s) as H. cbv zeta in H.
  fold self mkdir in H. destruct (respond w mkdir); [exact H|].
  unfold calls_of, printed. rewrite H. cbn [fst snd trace stdout fs].
  rewrite drop_app_length, drop_all. auto.
Qed.

(** ** Files outside the converter's own are never touched *)

Lemma effect_untouched (w : world) (c : call) (m : gmap (list string) file)
    (p : list string) :
  p ∉ touches c -> effect w c m !! p = m !! p.
Proof.
  intros Hp. destruct c; cbn [effect touches] in *; try reflexivity.
  - destruct (yolo_export_writes w); [|reflexivity].
    apply lookup_insert_ne. intros <-. apply Hp. apply list_elem_of_here.
  - destruct (m !! src) eqn:E; [|reflexivity].
    rewrite lookup_insert_ne, lookup_delete_ne; [reflexivity | |].
    + intros <-. apply Hp. apply list_elem_of_here.
    + intros <-. apply Hp. apply list_elem_of_further, list_elem_of_here.
  - apply lookup_insert_ne. intros <-. apply Hp. apply list_elem_of_here.
  - destruct (String.eqb mode "w"); [|reflexivity].
    apply lookup_insert_ne. intros <-. apply Hp. apply list_elem_of_here.
  - apply lookup_insert_ne. intros <-. apply Hp. apply list_elem_of_here.
Qed.

Section Confined.

Context {A B : Type} (ps : list Path.t).

Lemma confined_ret (a : A) : confined ps (mret a : M A).
Proof. intros s p _. reflexivity. Qed.

Lemma confined_bind (m : M A) (f : A -> M B) :
  confined ps m -> (forall a, confined ps (f a)) -> confined ps (m ≫= f).
Proof.
  intros Hm Hf s p Hp. unfold mbind, M_bind.
  specialize (Hm s p Hp). destruct (m s) as [s1 [a|e]]; cbn [fst] in *.
  - rewrite (Hf a s1 p Hp). exact Hm.
  - exact Hm.
Qed.

Lemma confined_try (body : M A) (handler : exn -> M A) :
  confined ps body -> (forall e, confined ps (handler e)) ->
  confined ps (try_except_Exception body handler).
Proof.
  intros Hb Hh s p Hp. unfold try_except_Exception.
  specialize (Hb s p Hp). destruct (body s) as [s1 [a|e]]; cbn [fst] in *.
  - exact Hb.
  - destruct (isinstance_Exception e); [|exact Hb].
    rewrite (Hh e s1 p Hp). exact Hb.
Qed.

End Confined.

Lemma confined_print ps line : confined ps (print line).
Proof. intros s p _. reflexivity. Qed.

Lemma confined_exists ps p' : confined ps (exists_ p').
Proof. intros s p _. reflexivity. Qed.

Lemma confined_torch_rand ps size : confined ps (torch_rand size).
Proof. intros s p _. reflexivity. Qed.

Lemma confined_invoke ps w c : touches c ⊆ ps -> confined ps (invoke w c).
Proof.
  intros Hsub s p Hp. unfold invoke.
  destruct (respond w c); cbn [fst fs]; [|reflexivity].
  apply effect_untouched. intros Hin. apply Hp, Hsub, Hin.
Qed.


Ltac solve_touches :=
  unfold touches; cbn [dest clip_text_export clip_vision_export clipseg_export];
  let x := fresh "x" in let Hin := fresh "Hin" in
  intros x Hin;
  repeat (apply elem_of_cons in Hin; destruct Hin as [-> | Hin]);
  [ elem_of_list .. | apply elem_of_nil in Hin; contradiction ].

Ltac confine :=
  repeat first
    [ apply confined_bind; [|intros ?]
    | apply confined_try; [|intros ?]
    | apply confined_print
    | apply confined_ret
    | apply confined_exists
    | apply confined_torch_rand
    | apply confined_invoke; solve_touches
    | match goal with |- confined _ (if ?b then _ else _) => destruct b end ].

Lemma convert_yolo_model_confined w self :
  confined [yolo_onnx_path; output_dir self // ["yolo11m-seg.onnx"]]
           (convert_yolo_model w self).
Proof. unfold convert_yolo_model. confine. Qed.

Lemma convert_clip_vit_model_confined w self :
  confined [output_dir self // ["clip_text_encoder.onnx"];
            output_dir self // ["clip_vision_encoder.onnx"]]
           (convert_clip_vit_model w self).
Proof. unfold convert_clip_vit_model. confine. Qed.

Lemma convert_clipseg_model_confined w self :
  confined [output_dir self // ["clipseg.onnx"]] (convert_clipseg_model w self).
Proof. unfold convert_clipseg_model. confine. Qed.

Lemma save_model_config_confined w self :
  confined [config_path self] (save_model_config w self).
Proof. unfold save_model_config. confine. Qed.




(** ** How an export ends *)

Ltac outcome_with o :=
  exists o; cbn [outcome_lines outcome_result];
  normalize_lists; rewrite ?drop_app_length;
  split; [split; [reflexivity | split; [reflexivity | first [exact I | assumption]]]|].

Ltac pick_outcome :=
  first
    [ match goal with
      | X : isinstance_Exception ?e = true |- _ => outcome_with (Failed e)
      | X : isinstance_Exception ?e = false |- _ => outcome_with (Interrupted e)
      end
    | outcome_with Succeeded
    | outcome_with NotFound ].

Lemma convert_yolo_model_outcome w self s :
  exists o,
    ends_in "YOLO" "✓ YOLO model converted successfully" (convert_yolo_model w self) s o /\
    (o = Succeeded ->
     is_Some (fs (fst (convert_yolo_model w self s))
                !! (output_dir self // ["yolo11m-seg.onnx"]))).
Proof.
  unfold ends_in, printed, convert_yolo_model. run w; pick_outcome; try discriminate.
  intros _. cbn [effect] in *.
  apply bool_decide_eq_true in D. destruct D as [f Hf]. rewrite Hf.
  rewrite lookup_insert_eq. eauto.
Qed.

Lemma convert_clip_vit_model_outcome w self s :
  exists o,
    ends_in "CLIP ViT" "✓ CLIP ViT models converted successfully"
            (convert_clip_vit_model w self) s o /\
    (o = Succeeded ->
     fs (fst (convert_clip_vit_model w self s))
       !! (output_dir self // ["clip_text_encoder.onnx"])
       = Some (OnnxGraph (clip_text_export self)) /\
     fs (fst (convert_clip_vit_model w self s))
       !! (output_dir self // ["clip_vision_encoder.onnx"])
       = Some (OnnxGraph (clip_vision_export self))).
Proof.
  unfold ends_in, printed, convert_clip_vit_model. run w; pick_outcome; try discriminate.
  intros _. cbn [effect dest clip_text_export clip_vision_export]. split.
  - rewrite lookup_insert_ne, lookup_insert_eq; [reflexivity|].
    intros H. apply app_inv_head in H. discriminate H.
  - apply lookup_insert_eq.
Qed.

Lemma convert_clipseg_model_outcome w self s :
  exists o,
    ends_in "CLIPSeg" "✓ CLIPSeg model converted successfully"
            (convert_clipseg_model w self) s o /\
    (o = Succeeded ->
     fs (fst (convert_clipseg_model w self s))
       !! (output_dir self // ["clipseg.onnx"])
       = Some (OnnxGraph (clipseg_export self))).
Proof.
  unfold ends_in, printed, convert_clipseg_model. run w; pick_outcome; try discriminate.
  intros _. cbn [effect dest clipseg_export]. apply lookup_insert_eq.
Qed.


(** ** The steps of [convert_all] *)

Lemma convert_all_cases w self s :
  respond w CheckLoaded = Returns ->
  convert_all w self s =
    match convert_yolo_model w self (loaded_state s) with
    | (s2, Raise e) => (s2, Raise e)
    | (s2, Normal _) =>
      match convert_clip_vit_model w self s2 with
      | (s3, Raise e) => (s3, Raise e)
      | (s3, Normal _) =>
        match convert_clipseg_model w self s3 with
        | (s4, Raise e) => (s4, Raise e)
        | (s4, Normal _) =>
          match save_model_config w self s4 with
          | (s5, Raise e) => (s5, Raise e)
          | (s5, Normal _) =>
              (State (stdout s5 ++ completion_report self) (fs s5) (rng s5) (trace s5),
               Normal tt)
          end
        end
      end
    end.
Proof.
  intros Hc.
  unfold convert_all, try_except_Exception, mbind, M_bind, mret, M_ret, invoke, print.
  rewrite Hc.
  cbn -[String.append convert_yolo_model convert_clip_vit_model
        convert_clipseg_model save_model_config].
  rewrite <- !app_assoc. cbn [app]. fold (loaded_state s).
  destruct (convert_yolo_model w self (loaded_state s)) as [s2 [[]|e2]]; [|reflexivity].
  destruct (convert_clip_vit_model w self s2) as [s3 [[]|e3]]; [|reflexivity].
  destruct (convert_clipseg_model w self s3) as [s4 [[]|e4]]; [|reflexivity].
  destruct (save_model_config w self s4) as [s5 [[]|e5]]; [|reflexivity].
  cbn -[String.append]. unfold completion_report.
  rewrite <- !app_assoc. reflexivity.
Qed.

Lemma export_stdout (model success : string) (start : call) w (m : M unit) s o :
  export_run w model start m s -> ends_in model success m s o ->
  stdout (fst (m s))
    = stdout s ++ ("Converting " +:+ model +:+ " model...") :: outcome_lines success model o.
Proof.
  intros (out & tr & Hout & _) (Hpr & _).
  rewrite <- Hpr. unfold printed. rewrite Hout at 1.
  rewrite Hout, drop_app_length. reflexivity.
Qed.

Lemma config_path_not_exported self :
  config_path self ∉ [ yolo_onnx_path;
                       output_dir self // ["yolo11m-seg.onnx"];
                       output_dir self // ["clip_text_encoder.onnx"];
                       output_dir self // ["clip_vision_encoder.onnx"];
                       output_dir self // ["clipseg.onnx"] ].
Proof.
  unfold config_path, yolo_onnx_path, Path.div. intros Hin.
  apply elem_of_cons in Hin. destruct Hin as [Hin | Hin].
  { apply (f_equal last) in Hin. rewrite last_snoc in Hin. discriminate Hin. }
  repeat (apply elem_of_cons in Hin; destruct Hin as [Hin | Hin];
          [apply app_inv_head in Hin; discriminate Hin|]).
  apply elem_of_nil in Hin. exact Hin.
Qed.

(** The state in which the config emitter starts, in a run whose loading
    check returned and whose exports let nothing through. *)
Lemma convert_all_after_exports w self s :
  respond w CheckLoaded = Returns -> raises_only_Exception w ->
  exists s4 o1 o2 o3,
    convert_all w self s =
      match save_model_config w self s4 with
      | (s5, Raise e) => (s5, Raise e)
      | (s5, Normal _) =>
          (State (stdout s5 ++ completion_report self) (fs s5) (rng s5) (trace s5),
           Normal tt)
      end /\
    stdout s4
      = stdout s
        ++ ["Starting model conversion..."; "Loading PyTorch models...";
            "✓ PyTorch models loaded"]
        ++ ("Converting YOLO model..."
              :: outcome_lines "✓ YOLO model converted successfully" "YOLO" o1)
        ++ ("Converting CLIP ViT model..."
              :: outcome_lines "✓ CLIP ViT models converted successfully" "CLIP ViT" o2)
        ++ ("Converting CLIPSeg model..."
              :: outcome_lines "✓ CLIPSeg model converted successfully" "CLIPSeg" o3) /\
    fs s4 !! config_path self = fs s !! config_path self.
Proof.
  intros Hc Hw.
  destruct (convert_all_stages w self s Hc Hw)
    as (s2 & s3 & s4 & E2 & E3 & E4 & _).
  destruct (convert_yolo_model_outcome w self (loaded_state s)) as (o1 & H1 & _).
  destruct (convert_clip_vit_model_outcome w self s2) as (o2 & H2 & _).
  destruct (convert_clipseg_model_outcome w self s3) as (o3 & H3 & _).
  pose proof (export_stdout _ _ _ _ _ _ _ (convert_yolo_model_run w self _) H1) as O1.
  pose proof (export_stdout _ _ _ _ _ _ _ (convert_clip_vit_model_run w self _) H2) as O2.
  pose proof (export_stdout _ _ _ _ _ _ _ (convert_clipseg_model_run w self _) H3) as O3.
  pose proof (config_path_not_exported self) as Hcfg.
  assert (F1 := convert_yolo_model_confined w self (loaded_state s) (config_path self)).
  assert (F2 := convert_clip_vit_model_confined w self s2 (config_path self)).
  assert (F3 := convert_clipseg_model_confined w self s3 (config_path self)).
  rewrite E2 in O1, F1. rewrite E3 in O2, F2. rewrite E4 in O3, F3. cbn [fst] in *.
  exists s4, o1, o2, o3. split; [|split].
  - rewrite (convert_all_cases w self s Hc), E2, E3, E4. reflexivity.
  - rewrite O3, O2, O1. cbn [loaded_state stdout].
    repeat (cbn [app]; rewrite <- ?app_assoc). reflexivity.
  - rewrite F3, F2, F1; [reflexivity | ..];
      intros Hin; apply Hcfg; clear -Hin;
      repeat (apply elem_of_cons in Hin; destruct Hin as [-> | Hin]);
      solve [elem_of_list | apply elem_of_nil in Hin; contradiction].
Qed.

Lemma save_model_config_open_raises w self s e :
  respond w (config_start self) = Raises e ->
  save_model_config w self s
    = (State (stdout s) (fs s) (rng s) (trace s ++ [config_start self]), Raise e).
Proof.
  unfold config_start. intros H. unfold save_model_config. unfold_M. rewrite H.
  reflexivity.
Qed.

Lemma save_model_config_dump_raises w self s e :
  respond w (config_start self) = Returns ->
  respond w (JsonDump Config.config (config_path self) 2) = Raises e ->
  save_model_config w self s
    = (State (stdout s) (<[config_path self := Unfinished]> (fs s)) (rng s)
             (trace s ++ [config_start self;
                          JsonDump Config.config (config_path self) 2]),
       Raise e).
Proof.
  unfold config_start. intros Ho Hd. unfold save_model_config. unfold_M.
  rewrite Ho. simpl_run. rewrite Hd. simpl_run. rewrite <- app_assoc. reflexivity.
Qed.

(** X2. [save_model_config] is not guarded: when opening [config.json]
    raises, the exception leaves [convert_all]; the last lines printed
    are those of the CLIPSeg export (no "saved", no completion report),
    and a [config.json] from an earlier run is left as it was. *)
Theorem config_open_failure_escapes w self s e :
  raises_only_Exception w -> respond w CheckLoaded = Returns ->
  respond w (config_start self) = Raises e ->
  snd (convert_all w self s) = Raise e /\
  fs (fst (convert_all w self s)) !! config_path self = fs s !! config_path self /\
  exists o1 o2 o3,
    printed (convert_all w self) s
      = ["Starting model conversion..."; "Loading PyTorch models...";
         "✓ PyTorch models loaded"]
        ++ ("Converting YOLO model..."
              :: outcome_lines "✓ YOLO model converted successfully" "YOLO" o1)
        ++ ("Converting CLIP ViT model..."
              :: outcome_lines "✓ CLIP ViT models converted successfully" "CLIP ViT" o2)
        ++ ("Converting CLIPSeg model..."
              :: outcome_lines "✓ CLIPSeg model converted successfully" "CLIPSeg" o3).
Proof.
  intros Hw Hc Ho.
  destruct (convert_all_after_exports w self s Hc Hw)
    as (s4 & o1 & o2 & o3 & Hall & Hout & Hfs).
  rewrite (save_model_config_open_raises w self s4 e Ho) in Hall.
  unfold printed. rewrite Hall. cbn [fst snd fs stdout].
  split; [reflexivity|]. split; [exact Hfs|].
  exists o1, o2, o3. rewrite Hout, drop_app_length. reflexivity.
Qed.

(** X3. When [config.json] was opened for writing and [json.dump] raises,
    the exception leaves [convert_all] without a completion report, and
    the file is left incomplete: what an earlier run had written there
    is gone. *)
Theorem config_dump_failure_truncates w self s e :
  raises_only_Exception w -> respond w CheckLoaded = Returns ->
  respond w (config_start self) = Returns ->
  respond w (JsonDump Config.config (config_path self) 2) = Raises e ->
  snd (convert_all w self s) = Raise e /\
  fs (fst (convert_all w self s)) !! config_path self = Some Unfinished /\
  exists o1 o2 o3,
    printed (convert_all w self) s
      = ["Starting model conversion..."; "Loading PyTorch models...";
         "✓ PyTorch models loaded"]
        ++ ("Converting YOLO model..."
              :: outcome_lines "✓ YOLO model converted successfully" "YOLO" o1)
        ++ ("Converting CLIP ViT model..."
              :: outcome_lines "✓ CLIP ViT models converted successfully" "CLIP ViT" o2)
        ++ ("Converting CLIPSeg model..."
              :: outcome_lines "✓ CLIPSeg model converted successfully" "CLIPSeg" o3).
Proof.
  intros Hw Hc Ho Hd.
  destruct (convert_all_after_exports w self s Hc Hw)
    as (s4 & o1 & o2 & o3 & Hall & Hout & Hfs).
  rewrite (save_model_config_dump_raises w self s4 e Ho Hd) in Hall.
  unfold printed. rewrite Hall. cbn [fst snd fs stdout].
  split; [reflexivity|]. split; [apply lookup_insert_eq|].
  exists o1, o2, o3. rewrite Hout, drop_app_length. reflexivity.
Qed.

(** X9. The completion report does not depend on the exports: in a run
    whose loading check returned and whose config emitter worked,
    [convert_all] returns normally and ends its output with "saved" and
    the six lines of the report, whatever each export did (failed ones
    included). *)
Theorem completion_report_ignores_export_outcomes w self s :
  raises_only_Exception w -> respond w CheckLoaded = Returns ->
  respond w (config_start self) = Returns ->
  respond w (JsonDump Config.config (config_path self) 2) = Returns ->
  snd (convert_all w self s) = Normal tt /\
  exists o1 o2 o3,
    printed (convert_all w self) s
      = ["Starting model conversion..."; "Loading PyTorch models...";
         "✓ PyTorch models loaded"]
        ++ ("Converting YOLO model..."
              :: outcome_lines "✓ YOLO model converted successfully" "YOLO" o1)
        ++ ("Converting CLIP ViT model..."
              :: outcome_lines "✓ CLIP ViT models converted successfully" "CLIP ViT" o2)
        ++ ("Converting CLIPSeg model..."
              :: outcome_lines "✓ CLIPSeg model converted successfully" "CLIPSeg" o3)
        ++ "✓ Model configuration saved" :: completion_report self.
Proof.
  intros Hw Hc Ho Hd.
  destruct (convert_all_after_exports w self s Hc Hw)
    as (s4 & o1 & o2 & o3 & Hall & Hout & Hfs).
  destruct (save_model_config_run w self s4) as (? & ? & _ & _ & _ & Hsave).
  rewrite (Hsave Ho Hd) in Hall.
  unfold printed. rewrite Hall. cbn [fst snd fs stdout].
  split; [reflexivity|].
  exists o1, o2, o3. rewrite Hout.
  repeat (cbn [app]; rewrite <- ?app_assoc). rewrite drop_app_length. reflexivity.
Qed.

(** ** What is not an [Exception] ends the run *)

Lemma calls_of_prefix {A} (m : M A) s :
  trace s `prefix_of` trace (fst (m s)) ->
  trace (fst (m s)) = trace s ++ calls_of m s.
Proof. intros [k Hk]. unfold calls_of. rewrite Hk, drop_app_length. reflexivity. Qed.

Section Stops.

Context (w : world) {A B : Type}.

Lemma stops_ret (a : A) : stops_at_interrupt w (mret a : M A).
Proof.
  intros s. split; [reflexivity|].
  unfold calls_of. cbn. rewrite drop_all. intros c e Hin. apply elem_of_nil in Hin. contradiction.
Qed.

Lemma stops_bind (m : M A) (f : A -> M B) :
  stops_at_interrupt w m -> (forall a, stops_at_interrupt w (f a)) ->
  stops_at_interrupt w (m ≫= f).
Proof.
  intros Hm Hf s. destruct (Hm s) as [Hp1 Hi1].
  pose proof (calls_of_prefix m s Hp1) as T1.
  unfold calls_of. unfold mbind, M_bind.
  destruct (m s) as [s1 [a|e1]] eqn:E; cbn [fst snd] in *.
  - destruct (Hf a s1) as [Hp2 Hi2].
    pose proof (calls_of_prefix (f a) s1 Hp2) as T2.
    split; [etrans; eassumption|].
    rewrite T2, T1, <- app_assoc, drop_app_length.
    intros c e Hin HR HX. apply elem_of_app in Hin as [Hin | Hin].
    + destruct (Hi1 c e Hin HR HX) as [Hbad _]. discriminate Hbad.
    + destruct (Hi2 c e Hin HR HX) as [Hres [tr Htr]].
      split; [exact Hres|]. exists (calls_of m s ++ tr).
      rewrite Htr, app_assoc. reflexivity.
  - split; [exact Hp1|]. rewrite T1, drop_app_length.
    intros c e Hin HR HX. destruct (Hi1 c e Hin HR HX) as [Hres Htr].
    injection Hres as ->. auto.
Qed.

Lemma stops_try (body : M A) (handler : exn -> M A) :
  stops_at_interrupt w body ->
  (forall e s, trace (fst (handler e s)) = trace s) ->
  stops_at_interrupt w (try_except_Exception body handler).
Proof.
  intros Hb Hh s. destruct (Hb s) as [Hp Hi].
  pose proof (calls_of_prefix body s Hp) as T.
  unfold calls_of. unfold try_except_Exception.
  destruct (body s) as [s1 [a|e1]] eqn:E; cbn [fst snd] in *.
  - split; [exact Hp|]. rewrite T, drop_app_length. exact Hi.
  - destruct (isinstance_Exception e1) eqn:X; cbn [fst snd].
    + rewrite Hh. split; [exact Hp|]. rewrite T, drop_app_length.
      intros c e Hin HR HX. destruct (Hi c e Hin HR HX) as [Hres _].
      injection Hres as ->. congruence.
    + split; [exact Hp|]. rewrite T, drop_app_length. exact Hi.
Qed.

End Stops.

Lemma stops_silent w {A} (m : M A) :
  (forall s, trace (fst (m s)) = trace s /\ exists a, snd (m s) = Normal a) ->
  stops_at_interrupt w m.
Proof.
  intros H s. destruct (H s) as [Ht _]. unfold calls_of. rewrite Ht. split; [reflexivity|].
  rewrite drop_all. intros c e Hin. apply elem_of_nil in Hin. contradiction.
Qed.

Lemma stops_print w line : stops_at_interrupt w (print line).
Proof. apply stops_silent. intros s. split; [reflexivity | eexists; reflexivity]. Qed.

Lemma stops_exists w p : stops_at_interrupt w (exists_ p).
Proof. apply stops_silent. intros s. split; [reflexivity | eexists; reflexivity]. Qed.

Lemma stops_torch_rand w size : stops_at_interrupt w (torch_rand size).
Proof. apply stops_silent. intros s. split; [reflexivity | eexists; reflexivity]. Qed.

Lemma stops_invoke w c : stops_at_interrupt w (invoke w c).
Proof.
  intros s. unfold calls_of, invoke.
  destruct (respond w c) as [|e0] eqn:R; cbn [fst snd trace];
    (split; [apply prefix_app_r; reflexivity|]);
    rewrite drop_app_length; intros c' e Hin HR HX;
    apply list_elem_of_singleton in Hin; subst c'; rewrite R in HR.
  - discriminate HR.
  - injection HR as ->. split; [reflexivity|]. exists []. reflexivity.
Qed.

Ltac stop :=
  repeat first
    [ apply stops_bind; [|intros ?]
    | apply stops_try; [|intros ? ?; reflexivity]
    | apply stops_print
    | apply stops_ret
    | apply stops_exists
    | apply stops_torch_rand
    | apply stops_invoke
    | match goal with |- stops_at_interrupt _ (if ?b then _ else _) => destruct b end ].

Lemma convert_all_stops w self : stops_at_interrupt w (convert_all w self).
Proof.
  unfold convert_all, convert_yolo_model, convert_clip_vit_model,
    convert_clipseg_model, save_model_config.
  stop.
Qed.

(** X10. In any run of the program, a library call that raises something
    that is no [Exception] (a [KeyboardInterrupt], say) is the last call
    made: no handler catches it, nothing further is attempted (no later
    export, no configuration), and it leaves the program. *)
Theorem non_Exception_ends_the_run w script_dir s c e :
  c ∈ calls_of (main w script_dir) s ->
  respond w c = Raises e -> isinstance_Exception e = false ->
  snd (main w script_dir s) = Raise e /\
  exists before, calls_of (main w script_dir) s = before ++ [c].
Proof.
  revert c e.
  assert (H : stops_at_interrupt w (main w script_dir)).
  { unfold main, init. apply stops_bind; [stop | intros converter; apply convert_all_stops]. }
  apply (H s).
Qed.

(** ** Edge cases of the YOLO export *)

(** X4. The check after the YOLO export only asks whether
    [yolo11m-seg.onnx] exists.  When ultralytics returns without writing
    it and a file of that name was already lying in the working
    directory, that file, whatever it holds, is moved into the output
    directory and success is reported. *)
Theorem stale_yolo_file_is_taken_for_the_export w self s f :
  respond w yolo_start = Returns ->
  respond w (YoloExport yolo_export) = Returns ->
  respond w (Rename yolo_onnx_path (output_dir self // ["yolo11m-seg.onnx"])) = Returns ->
  yolo_export_writes w = false ->
  fs s !! yolo_onnx_path = Some f ->
  printed (convert_yolo_model w self) s
    = ["Converting YOLO model..."; "✓ YOLO model converted successfully"] /\
  fs (fst (convert_yolo_model w self s))
    = <[output_dir self // ["yolo11m-seg.onnx"] := f]> (delete yolo_onnx_path (fs s)).
Proof.
  unfold yolo_start. intros H1 H2 H3 Hwr Hf.
  unfold printed, convert_yolo_model. unfold_M. rewrite H1. simpl_run. rewrite H2. simpl_run.
  cbn [effect]. rewrite Hwr, Hf.
  rewrite bool_decide_eq_true_2 by eauto.
  rewrite H3. simpl_run. cbn [effect]. rewrite ?Hwr, ?Hf.
  rewrite <- !app_assoc, drop_app_length. split; reflexivity.
Qed.

(** X5. When the exported file is there but moving it raises an
    [Exception], the failure is logged as a conversion failure and the
    graph stays in the working directory; nothing changes in the output
    directory. *)
Theorem failed_rename_leaves_graph_in_cwd w self s e :
  respond w yolo_start = Returns ->
  respond w (YoloExport yolo_export) = Returns ->
  yolo_export_writes w = true ->
  respond w (Rename yolo_onnx_path (output_dir self // ["yolo11m-seg.onnx"])) = Raises e ->
  isinstance_Exception e = true ->
  printed (convert_yolo_model w self) s
    = ["Converting YOLO model..."; failure_line "YOLO" e] /\
  snd (convert_yolo_model w self s) = Normal tt /\
  fs (fst (convert_yolo_model w self s))
    = <[yolo_onnx_path := YoloGraph yolo_export]> (fs s).
Proof.
  unfold yolo_start. intros H1 H2 Hwr H3 HX.
  unfold printed, convert_yolo_model. unfold_M. rewrite H1. simpl_run. rewrite H2. simpl_run.
  cbn [effect]. rewrite Hwr, lookup_insert_eq.
  rewrite bool_decide_eq_true_2 by eauto.
  rewrite H3. simpl_run. rewrite HX. simpl_run.
  rewrite <- !app_assoc, drop_app_length. repeat split; reflexivity.
Qed.

(** ** The two files of the CLIP ViT export *)

Lemma convert_yolo_model_rng w self s :
  rng (fst (convert_yolo_model w self s)) = rng s.
Proof. unfold convert_yolo_model. run w; reflexivity. Qed.

Section ClipVit.

Variables (w : world) (self : ModelConverter) (s : state).

Hypothesis Hmodel : respond w clip_vit_start = Returns.
Hypothesis Hproc : respond w (FromPretrained "CLIPProcessor" clip_vit_name) = Returns.
Hypothesis Heval : respond w (Eval "CLIPModel") = Returns.
Hypothesis Hinputs :
  respond w (Processor "CLIPProcessor" ["a bicycle"; "a car"; "a bus"]
               (fst (Torch.rand [1; 3; 224; 224]%nat (rng s))) "pt" true) = Returns.
Hypothesis Htext : respond w (OnnxExport (clip_text_export self)) = Returns.

(** X8. The CLIP ViT export writes two files in turn.  When everything up
    to the text encoder works and the export of the vision encoder raises
    an [Exception], the method reports a failure although
    [clip_text_encoder.onnx] has been written: the text encoder is left
    in the output directory without its vision counterpart. *)
Theorem failed_vision_export_leaves_text_encoder e :
  respond w (OnnxExport (clip_vision_export self)) = Raises e ->
  isinstance_Exception e = true ->
  printed (convert_clip_vit_model w self) s
    = ["Converting CLIP ViT model..."; failure_line "CLIP ViT" e] /\
  snd (convert_clip_vit_model w self s) = Normal tt /\
  fs (fst (convert_clip_vit_model w self s))
    = <[output_dir self // ["clip_text_encoder.onnx"] := OnnxGraph (clip_text_export self)]>
        (fs s).
Proof.
  intros Hvision HX. unfold clip_vit_start in *.
  pose proof Hinputs as Hi. cbn [Torch.rand fst] in Hi.
  unfold printed, convert_clip_vit_model. unfold_M.
  rewrite Hmodel. simpl_run. rewrite Hproc. simpl_run. rewrite Heval. simpl_run.
  rewrite Hi. simpl_run. rewrite Htext. simpl_run. rewrite Hvision. simpl_run.
  rewrite HX. simpl_run.
  rewrite <- !app_assoc, drop_app_length. repeat split; reflexivity.
Qed.

Lemma convert_clip_vit_model_succeeds :
  respond w (OnnxExport (clip_vision_export self)) = Returns ->
  snd (convert_clip_vit_model w self s) = Normal tt /\
  fs (fst (convert_clip_vit_model w self s))
    = <[output_dir self // ["clip_vision_encoder.onnx"] := OnnxGraph (clip_vision_export self)]>
        (<[output_dir self // ["clip_text_encoder.onnx"] := OnnxGraph (clip_text_export self)]>
           (fs s)).
Proof.
  intros Hvision. unfold clip_vit_start in *.
  pose proof Hinputs as Hi. cbn [Torch.rand fst] in Hi.
  unfold convert_clip_vit_model. unfold_M.
  rewrite Hmodel. simpl_run. rewrite Hproc. simpl_run. rewrite Heval. simpl_run.
  rewrite Hi. simpl_run. rewrite Htext. simpl_run. rewrite Hvision. simpl_run.
  split; reflexivity.
Qed.

End ClipVit.

(** X11. The exports do not undo one another.  In a run whose loading
    check returned, if the calls of the CLIP ViT export return, its two
    graphs are in the output directory at the end of [convert_all],
    whatever the YOLO export, the CLIPSeg export and the config emitter
    did. *)
Theorem clip_vit_graphs_survive_the_run w self s :
  raises_only_Exception w -> respond w CheckLoaded = Returns ->
  respond w clip_vit_start = Returns ->
  respond w (FromPretrained "CLIPProcessor" clip_vit_name) = Returns ->
  respond w (Eval "CLIPModel") = Returns ->
  respond w (Processor "CLIPProcessor" ["a bicycle"; "a car"; "a bus"]
               (fst (Torch.rand [1; 3; 224; 224]%nat (rng s))) "pt" true) = Returns ->
  respond w (OnnxExport (clip_text_export self)) = Returns ->
  respond w (OnnxExport (clip_vision_export self)) = Returns ->
  fs (fst (convert_all w self s)) !! (output_dir self // ["clip_text_encoder.onnx"])
    = Some (OnnxGraph (clip_text_export self)) /\
  fs (fst (convert_all w self s)) !! (output_dir self // ["clip_vision_encoder.onnx"])
    = Some (OnnxGraph (clip_vision_export self)).
Proof.
  intros Hw Hc H1 H2 H3 H4 H5 H6.
  destruct (convert_all_stages w self s Hc Hw)
    as (s2 & s3 & s4 & E2 & E3 & E4 & _ & -> & _).
  pose proof (convert_yolo_model_rng w self (loaded_state s)) as Hrng.
  rewrite E2 in Hrng. cbn [fst loaded_state rng] in Hrng. rewrite <- Hrng in H4.
  destruct (convert_clip_vit_model_succeeds w self s2 H1 H2 H3 H4 H5 H6) as [_ F3].
  rewrite E3 in F3. cbn [fst] in F3.
  assert (Hne : forall a b : string, a <> b ->
            output_dir self // [a] ∉ [output_dir self // [b]]).
  { intros a b Hab Hin. apply list_elem_of_singleton in Hin.
    apply app_inv_head in Hin. congruence. }
  assert (Hcfg : forall a : string, a <> "config.json" ->
            output_dir self // [a] ∉ [config_path self]).
  { intros a Ha. apply Hne, Ha. }
  split.
  - rewrite (save_model_config_confined w self s4 _
               (Hcfg "clip_text_encoder.onnx" ltac:(intro Hd; discriminate Hd))).
    pose proof (convert_clipseg_model_confined w self s3 _
                  (Hne "clip_text_encoder.onnx" "clipseg.onnx" ltac:(intro Hd; discriminate Hd))) as F4.
    rewrite E4 in F4. cbn [fst] in F4. rewrite F4, F3.
    rewrite lookup_insert_ne, lookup_insert_eq; [reflexivity|].
    intros H. apply app_inv_head in H. discriminate H.
  - rewrite (save_model_config_confined w self s4 _
               (Hcfg "clip_vision_encoder.onnx" ltac:(intro Hd; discriminate Hd))).
    pose proof (convert_clipseg_model_confined w self s3 _
                  (Hne "clip_vision_encoder.onnx" "clipseg.onnx" ltac:(intro Hd; discriminate Hd))) as F4.
    rewrite E4 in F4. cbn [fst] in F4. rewrite F4, F3.
    apply lookup_insert_eq.
Qed.


(** ** The configuration and the exports agree *)

(** X13. The ["path"] entries of the emitted configuration, read relative
    to the [browser-extension] folder next to the script, are exactly the
    four graph files the program writes. *)
Theorem config_lists_the_graphs_written (script_dir : Path.t) :
  exists rels : list Path.t,
    graph_paths {| output_dir := script_dir // default_output_dir |}
      = (fun rel => script_dir // ["browser-extension"] // rel) <$> rels /\
    Path.str <$> rels ≡ₚ model_paths Config.config.
Proof.
  exists [ ["models"; "yolo11m-seg.onnx"]; ["models"; "clip_text_encoder.onnx"];
           ["models"; "clip_vision_encoder.onnx"]; ["models"; "clipseg.onnx"] ].
  split.
  - unfold graph_paths, default_output_dir, Path.div. cbn [output_dir fmap list_fmap].
    rewrite <- !app_assoc. reflexivity.
  - apply (bool_decide_unpack _). vm_compute. exact I.
Qed.

Lemma convert_yolo_model_exports w self s a :
  YoloExport a ∈ calls_of (convert_yolo_model w self) s -> a = yolo_export.
Proof.
  unfold calls_of, convert_yolo_model. run w.
  all: normalize_lists; rewrite drop_app_length; intros Hin.
  all: repeat (apply elem_of_cons in Hin; destruct Hin as [Heq | Hin];
               [first [discriminate Heq | injection Heq as ->; reflexivity]|]).
  all: apply elem_of_nil in Hin; contradiction.
Qed.

(** X14. The ["input_size"] the configuration gives for each model is the
    size the export traced it at: the height and width of every
    placeholder handed to the CLIP and CLIPSeg processors, and the
    [imgsz] of every YOLO export call. *)
Theorem config_input_sizes_match_tracing w self s :
  Forall (fun t => Z.of_nat <$> drop 2 (shape t)
                   = model_input_size "clip_vision" Config.config)
         (placeholders (calls_of (convert_clip_vit_model w self) s)) /\
  Forall (fun t => Z.of_nat <$> drop 2 (shape t)
                   = model_input_size "clipseg" Config.config)
         (placeholders (calls_of (convert_clipseg_model w self) s)) /\
  (forall a, YoloExport a ∈ calls_of (convert_yolo_model w self) s ->
             [imgsz a; imgsz a] = model_input_size "yolo" Config.config).
Proof.
  split; [|split].
  - destruct (convert_clip_vit_model_placeholders w self s) as [-> | ->];
      [constructor | constructor; [reflexivity | constructor]].
  - destruct (convert_clipseg_model_placeholders w self s) as [-> | ->];
      [constructor | constructor; [reflexivity | constructor]].
  - intros a Hin. apply convert_yolo_model_exports in Hin. subst a. reflexivity.
Qed.

(** X15. In the emitted label tables, every key of [yolo_alias] is a
    class of the YOLO detector, is listed among its own targets, and has
    only YOLO classes as targets. *)
Theorem yolo_alias_is_well_formed :
  Forall (fun k => k ∈ yolo_classes_of Config.config /\
                   k ∈ yolo_alias_of k Config.config /\
                   Forall (fun v => v ∈ yolo_classes_of Config.config)
                          (yolo_alias_of k Config.config))
         (yolo_alias_keys Config.config) /\
  length (yolo_alias_keys Config.config) = 8%nat.
Proof.
  split; [|reflexivity]. apply (bool_decide_unpack _). vm_compute. exact I.
Qed.

(** X16. Every category a challenge phrase maps to, and every CLIP label,
    is a key of exactly one of the two tables [yolo_alias] and
    [thresholds]. *)
Theorem categories_have_one_table :
  Forall (fun x => (x ∈ yolo_alias_keys Config.config \/ x ∈ threshold_keys Config.config) /\
                   ~ (x ∈ yolo_alias_keys Config.config /\ x ∈ threshold_keys Config.config))
         (challenge_alias_values Config.config ++ clip_labels_of Config.config).
Proof. apply (bool_decide_unpack _). vm_compute. exact I. Qed.

(** ** The properties at concrete worlds *)

Ltac failing_at_raises_only :=
  let c := fresh "c" in let e := fresh "e" in let H := fresh "H" in
  intros c e H; cbn in H;
  match type of H with
  | (if ?b then _ else _) = _ => destruct b; [injection H as <-; reflexivity | discriminate H]
  end.

Lemma config_open_failure_escapes_witness :
  snd (convert_all (failing_at is_open disk_full true) self0 s0) = Raise disk_full.
Proof.
  apply (config_open_failure_escapes (failing_at is_open disk_full true) self0 s0 disk_full).
  - failing_at_raises_only.
  - reflexivity.
  - reflexivity.
Defined.

Lemma config_dump_failure_truncates_witness :
  snd (convert_all (failing_at is_json_dump disk_full true) self0 s0) = Raise disk_full /\
  fs (fst (convert_all (failing_at is_json_dump disk_full true) self0 s0))
    !! config_path self0 = Some Unfinished.
Proof.
  destruct (config_dump_failure_truncates
              (failing_at is_json_dump disk_full true) self0 s0 disk_full)
    as (Hres & Hfs & _).
  - failing_at_raises_only.
  - reflexivity.
  - reflexivity.
  - reflexivity.
  - split; [exact Hres | exact Hfs].
Defined.

Lemma completion_report_ignores_export_outcomes_witness :
  snd (convert_all exports_fail self0 s0) = Normal tt.
Proof.
  apply (completion_report_ignores_export_outcomes exports_fail self0 s0).
  - failing_at_raises_only.
  - reflexivity.
  - reflexivity.
  - reflexivity.
Defined.

Lemma stale_yolo_file_is_taken_for_the_export_witness :
  printed (convert_yolo_model yolo_leaves_nothing self0) s_stale
    = ["Converting YOLO model..."; "✓ YOLO model converted successfully"] /\
  fs (fst (convert_yolo_model yolo_leaves_nothing self0 s_stale))
    = <[output_dir self0 // ["yolo11m-seg.onnx"] := Blob "left over"]>
        (delete yolo_onnx_path (fs s_stale)).
Proof.
  apply (stale_yolo_file_is_taken_for_the_export yolo_leaves_nothing self0 s_stale
           (Blob "left over")).
  - reflexivity.
  - reflexivity.
  - reflexivity.
  - reflexivity.
  - reflexivity.
Defined.

Lemma failed_rename_leaves_graph_in_cwd_witness :
  fs (fst (convert_yolo_model (failing_at is_rename disk_full true) self0 s0))
    = <[yolo_onnx_path := YoloGraph yolo_export]> (fs s0).
Proof.
  apply (failed_rename_leaves_graph_in_cwd
           (failing_at is_rename disk_full true) self0 s0 disk_full).
  - reflexivity.
  - reflexivity.
  - reflexivity.
  - reflexivity.
  - reflexivity.
Defined.


Lemma failed_vision_export_leaves_text_encoder_witness :
  printed (convert_clip_vit_model (failing_at is_vision_export disk_full true) self0) s0
    = ["Converting CLIP ViT model..."; failure_line "CLIP ViT" disk_full] /\
  snd (convert_clip_vit_model (failing_at is_vision_export disk_full true) self0 s0)
    = Normal tt /\
  fs (fst (convert_clip_vit_model (failing_at is_vision_export disk_full true) self0 s0))
    = <[output_dir self0 // ["clip_text_encoder.onnx"] := OnnxGraph (clip_text_export self0)]>
        (fs s0).
Proof.
  apply (failed_vision_export_leaves_text_encoder
           (failing_at is_vision_export disk_full true) self0 s0).
  - reflexivity.
  - reflexivity.
  - reflexivity.
  - reflexivity.
  - reflexivity.
  - reflexivity.
  - reflexivity.
Defined.

Lemma non_Exception_ends_the_run_witness :
  snd (main (failing_at is_clip_model_load ctrl_c true) script_dir0 s0) = Raise ctrl_c.
Proof.
  apply (non_Exception_ends_the_run
           (failing_at is_clip_model_load ctrl_c true) script_dir0 s0 clip_vit_start ctrl_c).
  - vm_compute. elem_of_list.
  - reflexivity.
  - reflexivity.
Defined.

Lemma clip_vit_graphs_survive_the_run_witness :
  fs (fst (convert_all (failing_at is_rename disk_full true) self0 s0))
    !! (output_dir self0 // ["clip_text_encoder.onnx"])
    = Some (OnnxGraph (clip_text_export self0)).
Proof.
  apply (clip_vit_graphs_survive_the_run (failing_at is_rename disk_full true) self0 s0).
  - failing_at_raises_only.
  - reflexivity.
  - reflexivity.
  - reflexivity.
  - reflexivity.
  - reflexivity.
  - reflexivity.
  - reflexivity.
Defined.


Lemma test_pil_image_conversion_passes_witness :
  Test.test_pil_image_conversion_compatibility exact [1; 3; 352; 352]%nat (rng s0)
  = Test.Passed.
Proof.
  apply (test_pil_image_conversion_passes exact 352 352 (rng s0)).
  - split; [intros x y H; exact H | split; reflexivity].
  - lia.
  - lia.
Defined.
